(** * Adaptive grid engine of kuBot-futures: a shallow embedding

    The embedded code is [src/main_bot.py] ([ATRCalculator], [GridTradingBot])
    and [src/utils.py] ([PerformanceTracker]).

    Conventions of the embedding.
    - Python [float] values are read as exact rationals ([Q]); equalities
      between computed prices are therefore stated with [==].  A division
      whose divisor is zero raises [ZeroDivisionError] in Python and is
      modelled as a raised exception.
    - The bot object is an explicit state record [Bot]; every [async def]
      is a computation in the monad [M], whose results are either a value
      or a raised exception, the mutations done before the raise being kept.
    - Answers of the outside world (ticker price, candles, wall clock,
      exchange responses) are explicit arguments of the operation that
      asks for them.
    - The persistence store and the notifier never raise: [save_orders] and
      [save_pnl] overwrite a snapshot kept in the state, and
      [send_telegram_message] catches its own failures in the source. *)

From Stdlib Require Import String.
From Stdlib Require Import QArith Qabs Qminmax ZArith List Bool Arith Lia Lqa.
Import ListNotations.

Open Scope Q_scope.

(** ** Numbers *)

(** Python [a < b] on floats. *)
Definition Qltb (a b : Q) : bool := negb (Qle_bool b a).

(** Python [max(a, b, c)]: the first maximal argument. *)
Definition pymax3 (a b c : Q) : Q :=
  let m := if Qltb a b then b else a in
  if Qltb m c then c else m.

(** Python [sum(xs)]: left to right, starting from [0]. *)
Definition pysum (xs : list Q) : Q := fold_left Qplus xs 0.

(** Python [a / b]; [None] stands for [ZeroDivisionError]. *)
Definition pydiv (a b : Q) : option Q :=
  if Qeq_bool b 0 then None else Some (a / b).

Definition Qnat (n : nat) : Q := inject_Z (Z.of_nat n).

(** ** ATRCalculator *)

Module ATRCalculator.

(** Body of the loop of [calculate_atr] at index [i]; [None] stands for
    [IndexError]. *)
Definition true_range_at (highs lows closes : list Q) (i : nat) : option Q :=
  match nth_error highs i, nth_error lows i, nth_error closes (i - 1) with
  | Some h, Some l, Some c =>
      let high_low := h - l in
      let high_close_prev := Qabs (h - c) in
      let low_close_prev := Qabs (l - c) in
      Some (pymax3 high_low high_close_prev low_close_prev)
  | _, _, _ => None
  end.

(** [for i in range(1, len(highs)): ... true_ranges.append(true_range)] *)
Fixpoint collect_true_ranges (highs lows closes : list Q) (idx : list nat)
  : option (list Q) :=
  match idx with
  | [] => Some []
  | i :: rest =>
      match true_range_at highs lows closes i with
      | None => None
      | Some tr =>
          match collect_true_ranges highs lows closes rest with
          | None => None
          | Some trs => Some (tr :: trs)
          end
      end
  end.

(** Python [xs[-n:]] for [n >= 0]; [xs[-0:]] is the whole list. *)
Definition last_slice (n : nat) (xs : list Q) : list Q :=
  match n with
  | O => xs
  | _ => skipn (length xs - n) xs
  end.

Definition calculate_atr (highs lows closes : list Q) (period : nat)
  : option Q :=
  if (length highs <? period + 1)%nat then Some 0
  else
    match collect_true_ranges highs lows closes
            (seq 1 (length highs - 1)) with
    | None => None
    | Some true_ranges =>
        if (length true_ranges <? period)%nat
        then pydiv (pysum true_ranges) (Qnat (length true_ranges))
        else pydiv (pysum (last_slice period true_ranges)) (Qnat period)
    end.

(** The trailing mean as the specification words it: the true range at
    index [i >= 1], and the simple average of the last [N] of them. *)
Definition spec_true_range (highs lows closes : list Q) (i : nat) : Q :=
  let h := nth i highs 0 in
  let l := nth i lows 0 in
  let c := nth (i - 1) closes 0 in
  Qmax (Qmax (h - l) (Qabs (h - c))) (Qabs (l - c)).

Fixpoint spec_sum (f : nat -> Q) (from count : nat) : Q :=
  match count with
  | O => 0
  | S k => f from + spec_sum f (S from) k
  end.

Definition spec_atr (highs lows closes : list Q) (N : nat) : Q :=
  if (length highs <? N + 1)%nat then 0
  else spec_sum (spec_true_range highs lows closes) (length highs - N) N
       / Qnat N.

End ATRCalculator.

(** ** Records of the bot *)

Inductive Side := Buy | Sell.

Inductive Status := Active | Filled.

Definition Side_eqb (a b : Side) : bool :=
  match a, b with
  | Buy, Buy | Sell, Sell => true
  | _, _ => false
  end.

Record GridConfig := mkGridConfig {
  symbol : string;
  leverage : Z;
  grid_size : Z;
  budget : Q;
  upper_bound : Q;
  lower_bound : Q;
  spread : Q;
  increment : Q;
  stop_loss : Q;
  take_profit : Q;
  atr_period : nat
}.

Record Order := mkOrder {
  order_id : string;
  o_symbol : string;
  side : Side;
  size : Q;
  price : Q;
  status : Status;
  created_at : string;
  filled_at : option string
}.

(** One candle as [calculate_atr_bounds] reads it: [kline[2]], [kline[3]],
    [kline[4]]. *)
Record Kline := mkKline { k_high : Q; k_low : Q; k_close : Q }.

(** [pnl.json]: [{'total_pnl': ..., 'trades': [{'timestamp', 'profit'}]}]. *)
Record PnlData := mkPnl { total_pnl : Q; trades : list (string * Q) }.

(** What [load_config] reads from the environment. *)
Record Settings := mkSettings {
  cfg_symbol : string;
  cfg_leverage : Z;
  cfg_grid_size : Z;
  cfg_adjust_interval : Z;
  cfg_stop_loss : Q;
  cfg_take_profit : Q;
  cfg_budget : Q;
  cfg_sandbox : bool
}.

(** Texts sent through [send_telegram_message], by kind. *)
Inductive Notice :=
| NStart
| NAtrUpdate (atr current_price lower upper : Q)
| NGridConfigured (lower upper spread increment : Q)
| NInitialOrders (orders_created : nat) (current_price : Q)
| NMirror (filled : Order) (mirror_side : Side) (mirror_price profit : Q)
| NAdjustNeeded
| NAdjustDone
| NError.

(** A call of [place_order], as a ghost trace: the request is made whether
    the order is simulated or sent to the exchange. *)
Record Request := mkRequest { r_side : Side; r_price : Q; r_size : Q }.

(** The bot object together with the stores it writes to. *)
Record Bot := mkBot {
  active_orders : list Order;
  grid_config : option GridConfig;
  last_atr_update : Z;            (* seconds *)
  orders_file : list Order;       (* orders.json *)
  pnl_file : option PnlData;      (* pnl.json, absent at first *)
  outbox : list Notice;           (* oldest first *)
  requests : list Request;        (* calls of place_order, oldest first *)
  cancel_requests : list string   (* calls of kucoin_client.cancel_order *)
}.

(** ** The monad of bot operations *)

Inductive Outcome (A : Type) :=
| Ret (a : A)
| Raise.
Arguments Ret {A} a.
Arguments Raise {A}.

Definition M (A : Type) : Type := Bot -> Outcome A * Bot.

Definition ret {A} (a : A) : M A := fun s => (Ret a, s).

Definition raise {A} : M A := fun s => (Raise, s).

Definition bind {A B} (m : M A) (k : A -> M B) : M B :=
  fun s =>
    match m s with
    | (Ret a, s') => k a s'
    | (Raise, s') => (Raise, s')
    end.

(** [try: m  except Exception: h] *)
Definition try_except {A} (m : M A) (h : M A) : M A :=
  fun s =>
    match m s with
    | (Ret a, s') => (Ret a, s')
    | (Raise, s') => h s'
    end.

Definition get : M Bot := fun s => (Ret s, s).

Definition modify (f : Bot -> Bot) : M unit := fun s => (Ret tt, f s).

Definition lift_option {A} (o : option A) : M A :=
  match o with
  | Some a => ret a
  | None => raise
  end.

Declare Scope bot_scope.
Delimit Scope bot_scope with bot.
Notation "x <- m ;; k" := (bind m (fun x => k))
  (at level 61, m at next level, right associativity) : bot_scope.
Notation "m ;;; k" := (bind m (fun _ => k))
  (at level 61, right associativity) : bot_scope.
Open Scope bot_scope.

(** The state an operation leaves behind. *)
Definition exec {A} (m : M A) (s : Bot) : Bot := snd (m s).

Notation "' pat <- m ;; k" := (bind m (fun x => match x with pat => k end))
  (at level 61, pat pattern, m at next level, right associativity) : bot_scope.

(** [for x in xs: body(x)] *)
Fixpoint for_each {A} (xs : list A) (body : A -> M unit) : M unit :=
  match xs with
  | [] => ret tt
  | x :: rest => body x ;;; for_each rest body
  end.

(** Field updates of the bot object. *)
Definition set_active_orders (v : list Order) (s : Bot) : Bot :=
  mkBot v (grid_config s) (last_atr_update s) (orders_file s) (pnl_file s)
        (outbox s) (requests s) (cancel_requests s).
Definition set_grid_config (v : option GridConfig) (s : Bot) : Bot :=
  mkBot (active_orders s) v (last_atr_update s) (orders_file s) (pnl_file s)
        (outbox s) (requests s) (cancel_requests s).
Definition set_last_atr_update (v : Z) (s : Bot) : Bot :=
  mkBot (active_orders s) (grid_config s) v (orders_file s) (pnl_file s)
        (outbox s) (requests s) (cancel_requests s).
Definition set_orders_file (v : list Order) (s : Bot) : Bot :=
  mkBot (active_orders s) (grid_config s) (last_atr_update s) v (pnl_file s)
        (outbox s) (requests s) (cancel_requests s).
Definition set_pnl_file (v : option PnlData) (s : Bot) : Bot :=
  mkBot (active_orders s) (grid_config s) (last_atr_update s) (orders_file s) v
        (outbox s) (requests s) (cancel_requests s).
Definition set_outbox (v : list Notice) (s : Bot) : Bot :=
  mkBot (active_orders s) (grid_config s) (last_atr_update s) (orders_file s)
        (pnl_file s) v (requests s) (cancel_requests s).
Definition set_requests (v : list Request) (s : Bot) : Bot :=
  mkBot (active_orders s) (grid_config s) (last_atr_update s) (orders_file s)
        (pnl_file s) (outbox s) v (cancel_requests s).
Definition set_cancel_requests (v : list string) (s : Bot) : Bot :=
  mkBot (active_orders s) (grid_config s) (last_atr_update s) (orders_file s)
        (pnl_file s) (outbox s) (requests s) v.

(** Field updates of the grid configuration
    ([self.grid_config.lower_bound = new_lower] and the like). *)
Definition with_bounds (lo up : Q) (c : GridConfig) : GridConfig :=
  mkGridConfig (symbol c) (leverage c) (grid_size c) (budget c) up lo
               (spread c) (increment c) (stop_loss c) (take_profit c)
               (atr_period c).
Definition with_spread_increment (sp inc : Q) (c : GridConfig) : GridConfig :=
  mkGridConfig (symbol c) (leverage c) (grid_size c) (budget c)
               (upper_bound c) (lower_bound c) sp inc (stop_loss c)
               (take_profit c) (atr_period c).

(** What the outside world answers during one call of [place_order]: the
    reading of [datetime.now()] and the reply of [kucoin_client.add_order]
    ([None] when the call raises or the reply carries no ['data']). *)
Record Oracle := mkOracle { now_stamp : string; exchange_reply : option string }.

(** ** GridTradingBot *)

Module GridTradingBot.

Import ATRCalculator.

Definition send_telegram_message (n : Notice) : M unit :=
  modify (fun s => set_outbox (outbox s ++ [n]) s).

(** [self.persistence.save_orders(self.active_orders)] *)
Definition save_orders : M unit :=
  modify (fun s => set_orders_file (active_orders s) s).

(** [self.persistence.load_pnl()] *)
Definition load_pnl (s : Bot) : PnlData :=
  match pnl_file s with
  | Some d => d
  | None => mkPnl 0 []
  end.

Definition fallback_band (current_price : Q) : Q * Q :=
  (current_price * 0.95, current_price * 1.05).

(** The bounds from the volatility, before any notification. *)
Definition atr_band (current_price atr : Q) : Q * Q :=
  let atr_multiplier := 2 in
  (current_price - atr * atr_multiplier, current_price + atr * atr_multiplier).

(** [klines] is the answer of [get_klines] ([[]] on failure) and
    [current_price] the answer of the one call of [get_current_price]
    that every path of the function makes. *)
Definition calculate_atr_bounds (klines : list Kline) (current_price : Q)
  : M (Q * Q) :=
  try_except
    (match klines with
     | [] => ret (fallback_band current_price)
     | _ =>
         let highs := map k_high klines in
         let lows := map k_low klines in
         let closes := map k_close klines in
         atr <- lift_option (calculate_atr highs lows closes 14) ;;
         let '(lower_bound, upper_bound) := atr_band current_price atr in
         send_telegram_message
           (NAtrUpdate atr current_price lower_bound upper_bound) ;;;
         ret (lower_bound, upper_bound)
     end)
    (ret (fallback_band current_price)).

Definition position_size_of (self : Settings) : option Q :=
  pydiv (cfg_budget self) (inject_Z (cfg_grid_size self * 2)).

Definition calculate_grid_parameters (self : Settings)
           (lower_bound upper_bound : Q) : M (Q * Q) :=
  let price_range := upper_bound - lower_bound in
  spread <- lift_option (pydiv price_range (inject_Z (cfg_grid_size self))) ;;
  position_size <- lift_option (position_size_of self) ;;
  increment <- lift_option (pydiv position_size lower_bound) ;;
  ret (spread, increment).

(** In sandbox mode the order is simulated.  Otherwise the order is sent
    to the exchange; when the reply carries ['data'], the log line that
    follows reads the local [order_id], which is assigned in the sandbox
    branch only, so that [UnboundLocalError] is raised and caught by the
    [except] of [place_order], which returns [None]; when it does not,
    the function ends without a [return]. *)
Definition place_order (self : Settings) (orc : Oracle)
           (side : Side) (price size : Q) : M (option Order) :=
  modify (fun s => set_requests (requests s ++ [mkRequest side price size]) s) ;;;
  if cfg_sandbox self then
    ret (Some (mkOrder ("test_" ++ now_stamp orc) (cfg_symbol self) side size
                       price Active (now_stamp orc) None))
  else
    match exchange_reply orc with
    | Some _ => ret None
    | None => ret None
    end.

Definition append_order (o : Order) : M unit :=
  modify (fun s => set_active_orders (active_orders s ++ [o]) s).

(** The price of rung [i] of one side of the ladder, and the test made
    before it is placed. *)
Definition rung_price (cfg : GridConfig) (sd : Side) (current_price : Q)
           (i : nat) : Q :=
  match sd with
  | Buy => current_price - Qnat (i + 1) * spread cfg
  | Sell => current_price + Qnat (i + 1) * spread cfg
  end.

Definition rung_inside (cfg : GridConfig) (sd : Side) (price : Q) : bool :=
  match sd with
  | Buy => Qle_bool (lower_bound cfg) price
  | Sell => Qle_bool price (upper_bound cfg)
  end.

(** One side of the ladder: [for i in range(self.grid_size // 2)], with
    the running value of [orders_created]. *)
Fixpoint ladder_loop (self : Settings) (cfg : GridConfig) (sd : Side)
         (current_price : Q) (clock : Side -> nat -> Oracle)
         (idx : list nat) (orders_created : nat) : M nat :=
  match idx with
  | [] => ret orders_created
  | i :: rest =>
      let price := rung_price cfg sd current_price i in
      if rung_inside cfg sd price then
        order <- place_order self (clock sd i) sd price (increment cfg) ;;
        match order with
        | Some o =>
            append_order o ;;;
            ladder_loop self cfg sd current_price clock rest
                        (orders_created + 1)
        | None =>
            ladder_loop self cfg sd current_price clock rest orders_created
        end
      else ladder_loop self cfg sd current_price clock rest orders_created
  end.

Definition half_range (self : Settings) : list nat :=
  seq 0 (Z.to_nat (cfg_grid_size self / 2)).

Definition create_initial_orders (self : Settings) (current_price : Q)
           (clock : Side -> nat -> Oracle) : M unit :=
  try_except
    (s <- get ;;
     match grid_config s with
     | None => ret tt
     | Some cfg =>
         n <- ladder_loop self cfg Buy current_price clock
                          (half_range self) 0 ;;
         n <- ladder_loop self cfg Sell current_price clock
                          (half_range self) n ;;
         save_orders ;;;
         send_telegram_message (NInitialOrders n current_price)
     end)
    (send_telegram_message NError).

Definition update_pnl (profit : Q) (stamp : string) : M unit :=
  try_except
    (s <- get ;;
     let pnl_data := load_pnl s in
     modify (set_pnl_file
               (Some (mkPnl (total_pnl pnl_data + profit)
                            (trades pnl_data ++ [(stamp, profit)])))))
    (ret tt).

(** The mirror of a filled order: side and price. *)
Definition mirror_of (cfg : GridConfig) (filled_order : Order) : Side * Q :=
  match side filled_order with
  | Buy => (Sell, price filled_order + spread cfg)
  | Sell => (Buy, price filled_order - spread cfg)
  end.

Definition mirror_in_bounds (cfg : GridConfig) (mirror_side : Side)
           (mirror_price : Q) : bool :=
  (Side_eqb mirror_side Buy && Qle_bool (lower_bound cfg) mirror_price)
  || (Side_eqb mirror_side Sell && Qle_bool mirror_price (upper_bound cfg)).

Definition remove_order (id : string) (orders : list Order) : list Order :=
  filter (fun o => negb (String.eqb (order_id o) id)) orders.

Definition handle_filled_order (self : Settings) (orc : Oracle)
           (filled_order : Order) : M unit :=
  try_except
    (s <- get ;;
     cfg <- lift_option (grid_config s) ;;
     let '(mirror_side, mirror_price) := mirror_of cfg filled_order in
     (if mirror_in_bounds cfg mirror_side mirror_price then
        mirror_order <- place_order self orc mirror_side mirror_price
                                    (size filled_order) ;;
        match mirror_order with
        | Some mo =>
            append_order mo ;;;
            let profit := size filled_order * spread cfg in
            send_telegram_message
              (NMirror filled_order mirror_side mirror_price profit) ;;;
            save_orders ;;;
            update_pnl profit (now_stamp orc)
        | None => ret tt
        end
      else ret tt) ;;;
     modify (fun s =>
               set_active_orders
                 (remove_order (order_id filled_order) (active_orders s)) s))
    (ret tt).

Definition cancel_all_orders (self : Settings) : M unit :=
  try_except
    (s <- get ;;
     (if cfg_sandbox self then ret tt
      else modify (fun s' =>
                     set_cancel_requests
                       (cancel_requests s' ++ map order_id (active_orders s))
                       s')) ;;;
     modify (set_active_orders []) ;;;
     save_orders)
    (ret tt).

Definition threshold : Q := 0.05.

(** [lower_diff > threshold or upper_diff > threshold] *)
Definition needs_adjustment (lower_diff upper_diff : Q) : bool :=
  Qltb threshold lower_diff || Qltb threshold upper_diff.

(** Times are in seconds; [cfg_adjust_interval] is in minutes. *)
Definition check_and_adjust_grid (self : Settings) (now : Z)
           (klines : list Kline) (bounds_price ladder_price : Q)
           (clock : Side -> nat -> Oracle) : M unit :=
  try_except
    (s <- get ;;
     match grid_config s with
     | None => ret tt
     | Some _ =>
         if (now - last_atr_update s <? cfg_adjust_interval self * 60)%Z
         then ret tt
         else
           '(new_lower, new_upper) <- calculate_atr_bounds klines bounds_price ;;
           s <- get ;;
           cfg <- lift_option (grid_config s) ;;
           lower_diff <- lift_option
             (pydiv (Qabs (new_lower - lower_bound cfg)) (lower_bound cfg)) ;;
           upper_diff <- lift_option
             (pydiv (Qabs (new_upper - upper_bound cfg)) (upper_bound cfg)) ;;
           (if needs_adjustment lower_diff upper_diff then
              send_telegram_message NAdjustNeeded ;;;
              cancel_all_orders self ;;;
              modify (fun s =>
                        set_grid_config
                          (option_map (with_bounds new_lower new_upper)
                                      (grid_config s)) s) ;;;
              '(spread, increment) <-
                 calculate_grid_parameters self new_lower new_upper ;;
              modify (fun s =>
                        set_grid_config
                          (option_map (with_spread_increment spread increment)
                                      (grid_config s)) s) ;;;
              create_initial_orders self ladder_price clock ;;;
              send_telegram_message NAdjustDone
            else ret tt) ;;;
           modify (set_last_atr_update now)
     end)
    (ret tt).

Definition setup_grid (self : Settings) (klines : list Kline)
           (bounds_price ladder_price : Q) (clock : Side -> nat -> Oracle)
  : M unit :=
  try_except
    (send_telegram_message NStart ;;;
     '(lower_bound, upper_bound) <- calculate_atr_bounds klines bounds_price ;;
     '(spread, increment) <-
        calculate_grid_parameters self lower_bound upper_bound ;;
     modify (set_grid_config
               (Some (mkGridConfig (cfg_symbol self) (cfg_leverage self)
                                   (cfg_grid_size self) (cfg_budget self)
                                   upper_bound lower_bound spread increment
                                   (cfg_stop_loss self) (cfg_take_profit self)
                                   14))) ;;;
     send_telegram_message
       (NGridConfigured lower_bound upper_bound spread increment) ;;;
     create_initial_orders self ladder_price clock)
    (send_telegram_message NError).

(** The bot as [__init__] leaves it, at time [t0]. *)
Definition init (t0 : Z) : Bot := mkBot [] None t0 [] None [] [] [].

End GridTradingBot.

(** ** PerformanceTracker *)

Module PerformanceTracker.

Inductive TradeType := Win | Loss.

Definition TradeType_eqb (a b : TradeType) : bool :=
  match a, b with
  | Win, Win | Loss, Loss => true
  | _, _ => false
  end.

Record Tracker := mkTracker {
  trades_count : nat;
  winning_trades : nat;
  losing_trades : nat;
  total_profit : Q;
  total_loss : Q;
  max_consecutive_wins : nat;
  max_consecutive_losses : nat;
  current_streak : nat;
  current_streak_type : option TradeType
}.

(** [__init__] *)
Definition fresh : Tracker := mkTracker 0 0 0 0 0 0 0 0 None.

Definition _update_streak (trade_type : TradeType) (self : Tracker) : Tracker :=
  let same :=
    match current_streak_type self with
    | Some t => TradeType_eqb t trade_type
    | None => false
    end in
  let streak := if same then (current_streak self + 1)%nat else 1%nat in
  let self :=
    mkTracker (trades_count self) (winning_trades self) (losing_trades self)
              (total_profit self) (total_loss self)
              (max_consecutive_wins self) (max_consecutive_losses self)
              streak (Some trade_type) in
  match trade_type with
  | Win =>
      mkTracker (trades_count self) (winning_trades self) (losing_trades self)
                (total_profit self) (total_loss self)
                (Nat.max (max_consecutive_wins self) (current_streak self))
                (max_consecutive_losses self)
                (current_streak self) (current_streak_type self)
  | Loss =>
      mkTracker (trades_count self) (winning_trades self) (losing_trades self)
                (total_profit self) (total_loss self)
                (max_consecutive_wins self)
                (Nat.max (max_consecutive_losses self) (current_streak self))
                (current_streak self) (current_streak_type self)
  end.

(** The tracker after [add_trade(profit)]; the returned statistics are a
    read-only view of it. *)
Definition add_trade (self : Tracker) (profit : Q) : Tracker :=
  let self :=
    mkTracker (trades_count self + 1) (winning_trades self)
              (losing_trades self) (total_profit self) (total_loss self)
              (max_consecutive_wins self) (max_consecutive_losses self)
              (current_streak self) (current_streak_type self) in
  if Qltb 0 profit then
    _update_streak Win
      (mkTracker (trades_count self) (winning_trades self + 1)
                 (losing_trades self) (total_profit self + profit)
                 (total_loss self) (max_consecutive_wins self)
                 (max_consecutive_losses self) (current_streak self)
                 (current_streak_type self))
  else
    _update_streak Loss
      (mkTracker (trades_count self) (winning_trades self)
                 (losing_trades self + 1) (total_profit self)
                 (total_loss self + Qabs profit) (max_consecutive_wins self)
                 (max_consecutive_losses self) (current_streak self)
                 (current_streak_type self)).

(** A fresh tracker after the trades [profits], oldest first. *)
Definition after (profits : list Q) : Tracker :=
  fold_left add_trade profits fresh.

(** The outcome type of a trade, and the number of trailing outcomes of
    the same type as the last one. *)
Definition outcome_of (profit : Q) : TradeType :=
  if Qltb 0 profit then Win else Loss.

Fixpoint leading_run (t : TradeType) (l : list TradeType) : nat :=
  match l with
  | x :: rest => if TradeType_eqb x t then S (leading_run t rest) else 0
  | [] => 0
  end.

Definition trailing_run (l : list TradeType) : nat :=
  match rev l with
  | [] => 0
  | t :: rest => S (leading_run t rest)
  end.

(** The last outcome recorded, if any. *)
Definition last_outcome (l : list TradeType) : option TradeType :=
  match rev l with
  | [] => None
  | t :: _ => Some t
  end.

End PerformanceTracker.

(** ** Closed forms of the ladder and of the mirror *)

Module Ladder.

Import GridTradingBot.

(** The rungs of one side that pass the bound test, in loop order. *)
Definition rungs (cfg : GridConfig) (sd : Side) (current_price : Q)
           (idx : list nat) : list nat :=
  filter (fun i => rung_inside cfg sd (rung_price cfg sd current_price i)) idx.

Definition rung_request (cfg : GridConfig) (sd : Side) (current_price : Q)
           (i : nat) : Request :=
  mkRequest sd (rung_price cfg sd current_price i) (increment cfg).

(** The order [place_order] returns in sandbox mode. *)
Definition simulated_order (self : Settings) (orc : Oracle) (sd : Side)
           (price size : Q) : Order :=
  mkOrder ("test_" ++ now_stamp orc) (cfg_symbol self) sd size price Active
          (now_stamp orc) None.

Definition side_requests (cfg : GridConfig) (sd : Side) (current_price : Q)
           (idx : list nat) : list Request :=
  map (rung_request cfg sd current_price) (rungs cfg sd current_price idx).

Definition side_orders (self : Settings) (cfg : GridConfig) (sd : Side)
           (current_price : Q) (clock : Side -> nat -> Oracle)
           (idx : list nat) : list Order :=
  if cfg_sandbox self then
    map (fun i => simulated_order self (clock sd i) sd
                    (rung_price cfg sd current_price i) (increment cfg))
        (rungs cfg sd current_price idx)
  else [].

(** Everything [create_initial_orders] requests, and everything it adds
    to the active orders. *)
Definition ladder_requests (self : Settings) (cfg : GridConfig)
           (current_price : Q) : list Request :=
  side_requests cfg Buy current_price (half_range self)
  ++ side_requests cfg Sell current_price (half_range self).

Definition ladder_orders (self : Settings) (cfg : GridConfig)
           (current_price : Q) (clock : Side -> nat -> Oracle) : list Order :=
  side_orders self cfg Buy current_price clock (half_range self)
  ++ side_orders self cfg Sell current_price clock (half_range self).

End Ladder.

Module Bounds.

Import ATRCalculator GridTradingBot.

(** The volatility [calculate_atr_bounds] works from: [None] when it takes
    one of its two fallback paths (no candle, or an exception). *)
Definition atr_of (klines : list Kline) : option Q :=
  match klines with
  | [] => None
  | _ => calculate_atr (map k_high klines) (map k_low klines)
                       (map k_close klines) 14
  end.

(** What [calculate_atr_bounds] returns, and what it sends. *)
Definition bounds_of (klines : list Kline) (current_price : Q) : Q * Q :=
  match atr_of klines with
  | Some atr => atr_band current_price atr
  | None => fallback_band current_price
  end.

Definition bounds_notices (klines : list Kline) (current_price : Q)
  : list Notice :=
  match atr_of klines with
  | Some atr =>
      [NAtrUpdate atr current_price (fst (atr_band current_price atr))
                  (snd (atr_band current_price atr))]
  | None => []
  end.


(** The drift test as the specification words it. *)
Definition drifted (new_lower new_upper : Q) (cfg : GridConfig) : Prop :=
  0.05 < Qabs (new_lower - lower_bound cfg) / lower_bound cfg
  \/ 0.05 < Qabs (new_upper - upper_bound cfg) / upper_bound cfg.

End Bounds.

Module Mirror.

Import GridTradingBot.

(** Whether [handle_filled_order] asks for the mirror, and whether
    [place_order] then returns an order. *)
Definition requested (cfg : GridConfig) (filled_order : Order) : bool :=
  mirror_in_bounds cfg (fst (mirror_of cfg filled_order))
                   (snd (mirror_of cfg filled_order)).

Definition placed (self : Settings) (cfg : GridConfig) (filled_order : Order)
  : bool :=
  requested cfg filled_order && cfg_sandbox self.

Definition mirror_request (cfg : GridConfig) (filled_order : Order) : Request :=
  mkRequest (fst (mirror_of cfg filled_order))
            (snd (mirror_of cfg filled_order)) (size filled_order).

Definition mirror_order (self : Settings) (orc : Oracle) (cfg : GridConfig)
           (filled_order : Order) : Order :=
  Ladder.simulated_order self orc (fst (mirror_of cfg filled_order))
                         (snd (mirror_of cfg filled_order))
                         (size filled_order).

(** The profit attributed to a fill and the ledger once it is recorded. *)
Definition profit_of (cfg : GridConfig) (filled_order : Order) : Q :=
  size filled_order * spread cfg.

Definition ledger_with (stamp : string) (profit : Q) (pnl_data : PnlData)
  : PnlData :=
  mkPnl (total_pnl pnl_data + profit) (trades pnl_data ++ [(stamp, profit)]).

End Mirror.

(** The bound a request is tested against: the lower one for a buy, the
    upper one for a sell. *)
Definition within_side_bound (cfg : GridConfig) (sd : Side) (p : Q) : Prop :=
  match sd with
  | Buy => lower_bound cfg <= p
  | Sell => p <= upper_bound cfg
  end.

Definition within_bounds (cfg : GridConfig) (p : Q) : Prop :=
  lower_bound cfg <= p /\ p <= upper_bound cfg.

Definition count_side (sd : Side) (orders : list Order) : nat :=
  length (filter (fun o => Side_eqb (side o) sd) orders).

(** ** Sample inputs *)

Definition sample_settings : Settings :=
  mkSettings "BTC-USDT" 10 10 15 0.01 0.02 1000 true.

Definition with_grid (gs : Z) (b : Q) (self : Settings) : Settings :=
  mkSettings (cfg_symbol self) (cfg_leverage self) gs
             (cfg_adjust_interval self) (cfg_stop_loss self)
             (cfg_take_profit self) b (cfg_sandbox self).

Definition flat_candle : Kline := mkKline 101 99 100.

Definition sample_cfg : GridConfig :=
  mkGridConfig "BTC-USDT" 10 10 1000 104 96 0.8 (50 / 96) 0.01 0.02 14.

(** A clock whose readings differ from one placement to the next. *)
Definition sample_clock (sd : Side) (i : nat) : Oracle :=
  mkOracle (String.append
              (match sd with Buy => "b"%string | Sell => "s"%string end)
              (String (Ascii.ascii_of_nat (48 + i)) EmptyString))
           None.

(** Fifteen candles of true range 2, and fifteen of true range 5. *)
Definition candles_atr_2 : list Kline := repeat flat_candle 15.

(** A bot whose grid is [sample_cfg] and whose ladder was built at
    price 100. *)
Definition sample_bot : Bot :=
  exec (GridTradingBot.create_initial_orders sample_settings 100 sample_clock)
       (set_grid_config (Some sample_cfg) (GridTradingBot.init 0)).

Definition filled_buy : Order :=
  mkOrder "test_b0" "BTC-USDT" Buy (50 / 96) 99.2 Filled "b0" (Some "f0"%string).

(** The end-to-end scenario: price 100, ATR 2, grid size 10, budget 1000,
    sandbox mode. *)
Definition scenario : Bot :=
  exec (GridTradingBot.setup_grid sample_settings candles_atr_2 100 100
          sample_clock)
       (GridTradingBot.init 0).

(** The same set-up when the ticker reads 105 at the time the ladder is
    built, and 104.5. *)
Definition scenario_105 : Bot :=
  exec (GridTradingBot.setup_grid sample_settings candles_atr_2 100 105
          sample_clock)
       (GridTradingBot.init 0).

Definition scenario_104_5 : Bot :=
  exec (GridTradingBot.setup_grid sample_settings candles_atr_2 100 104.5
          sample_clock)
       (GridTradingBot.init 0).

Definition prices_of (sd : Side) (orders : list Order) : list Q :=
  map (fun o => Qred (price o)) (filter (fun o => Side_eqb (side o) sd) orders).

(** ** Predicates on the ledger and on the grid *)

(** The total of the ledger is the sum of the profits of its trades. *)
Definition ledger_consistent (d : PnlData) : Prop :=
  total_pnl d == pysum (map snd (trades d)).

(** A sequence of calls [update_pnl(profit)], each with the reading of the
    clock it stamps the trade with. *)
Definition record_all (calls : list (string * Q)) (s : Bot) : Bot :=
  fold_left (fun s c => exec (GridTradingBot.update_pnl (snd c) (fst c)) s)
            calls s.

(** A price that is a whole number of spreads away from [origin], and an
    order of the grid anchored at [origin]. *)
Definition on_lattice (cfg : GridConfig) (origin p : Q) : Prop :=
  exists k : Z, p == origin + inject_Z k * spread cfg.

Definition grid_order (cfg : GridConfig) (origin : Q) (o : Order) : Prop :=
  on_lattice cfg origin (price o) /\ size o = increment cfg.

(** The bot whose ticker and candles were both unavailable at the time of
    an adjustment: no candle, price [0.0]. *)
Definition outage_bot : Bot :=
  exec (GridTradingBot.check_and_adjust_grid sample_settings 900 [] 0 0
          sample_clock) sample_bot.

(** ** RiskManager *)

Module RiskManager.

Record Manager := mkManager {
  max_drawdown : Q;
  max_daily_loss : Q;
  daily_pnl : Q;
  session_start_balance : Q;
  peak_balance : Q
}.

(** [__init__(max_drawdown, max_daily_loss)] *)
Definition init (max_drawdown max_daily_loss : Q) : Manager :=
  mkManager max_drawdown max_daily_loss 0 0 0.

Definition reset_daily_pnl (self : Manager) : Manager :=
  mkManager (max_drawdown self) (max_daily_loss self) 0
            (session_start_balance self) (peak_balance self).

(** The dictionary [risk_status]. *)
Record RiskStatus := mkRiskStatus {
  daily_limit_exceeded : bool;
  drawdown_limit_exceeded : bool;
  should_stop_trading : bool
}.

Definition check_risk_limits (self : Manager) (current_balance : Q)
  : RiskStatus :=
  let daily :=
    if Qltb 0 (session_start_balance self) then
      let daily_loss_pct :=
        Qabs (daily_pnl self) / session_start_balance self in
      Qltb (max_daily_loss self) daily_loss_pct
    else false in
  let drawdown_exceeded :=
    if Qltb 0 (peak_balance self) then
      let drawdown :=
        (peak_balance self - current_balance) / peak_balance self in
      Qltb (max_drawdown self) drawdown
    else false in
  mkRiskStatus daily drawdown_exceeded (daily || drawdown_exceeded).

Definition update_pnl (self : Manager) (pnl_change current_balance : Q)
  : Manager * RiskStatus :=
  let self :=
    mkManager (max_drawdown self) (max_daily_loss self)
              (daily_pnl self + pnl_change) (session_start_balance self)
              (peak_balance self) in
  let self :=
    if Qltb (peak_balance self) current_balance then
      mkManager (max_drawdown self) (max_daily_loss self) (daily_pnl self)
                (session_start_balance self) current_balance
    else self in
  (self, check_risk_limits self current_balance).

(** Calls of the methods of a manager, and the manager and the statuses
    returned after a sequence of them. *)
Inductive Call :=
| Update (pnl_change current_balance : Q)
| Reset.

Definition step (acc : Manager * list RiskStatus) (c : Call)
  : Manager * list RiskStatus :=
  match c with
  | Update pnl_change current_balance =>
      let '(m, st) := update_pnl (fst acc) pnl_change current_balance in
      (m, snd acc ++ [st])
  | Reset => (reset_daily_pnl (fst acc), snd acc)
  end.

Definition run (calls : list Call) (self : Manager)
  : Manager * list RiskStatus :=
  fold_left step calls (self, []).

End RiskManager.

(** ** PerformanceTracker.get_stats *)

Module PerformanceReport.

(** A Python float that may be [float('inf')]. *)
Inductive Ratio :=
| Finite (q : Q)
| Infinite.

(** The dictionary returned by [get_stats]. *)
Record Stats := mkStats {
  runtime_hours : Q;
  total_trades : nat;
  winning_trades : nat;
  losing_trades : nat;
  win_rate : Q;
  total_pnl : Q;
  total_profit : Q;
  total_loss : Q;
  avg_win : Q;
  avg_loss : Q;
  profit_factor : Ratio;
  max_consecutive_wins : nat;
  max_consecutive_losses : nat;
  current_streak : nat;
  current_streak_type : option PerformanceTracker.TradeType
}.

(** [runtime_seconds] is [(datetime.now() - self.start_time).total_seconds()]. *)
Definition get_stats (self : PerformanceTracker.Tracker) (runtime_seconds : Q)
  : Stats :=
  let trades_count := PerformanceTracker.trades_count self in
  let wins := PerformanceTracker.winning_trades self in
  let losses := PerformanceTracker.losing_trades self in
  let profit := PerformanceTracker.total_profit self in
  let loss := PerformanceTracker.total_loss self in
  let win_rate :=
    if (0 <? trades_count)%nat then Qnat wins / Qnat trades_count * 100
    else 0 in
  let avg_win := if (0 <? wins)%nat then profit / Qnat wins else 0 in
  let avg_loss := if (0 <? losses)%nat then loss / Qnat losses else 0 in
  let profit_factor := if Qltb 0 loss then Finite (profit / loss) else Infinite in
  mkStats (runtime_seconds / 3600) trades_count wins losses win_rate
          (profit - loss) profit loss avg_win avg_loss profit_factor
          (PerformanceTracker.max_consecutive_wins self)
          (PerformanceTracker.max_consecutive_losses self)
          (PerformanceTracker.current_streak self)
          (PerformanceTracker.current_streak_type self).

End PerformanceReport.

(** The streak of the current type never exceeds the recorded maximum of
    that type, and each maximum never exceeds the number of trades of its
    type. *)
Definition streak_bounded (t : PerformanceTracker.Tracker) : Prop :=
  (PerformanceTracker.max_consecutive_wins t <= PerformanceTracker.winning_trades t)%nat
  /\ (PerformanceTracker.max_consecutive_losses t <= PerformanceTracker.losing_trades t)%nat
  /\ match PerformanceTracker.current_streak_type t with
     | Some PerformanceTracker.Win => (1 <= PerformanceTracker.current_streak t <= PerformanceTracker.max_consecutive_wins t)%nat
     | Some PerformanceTracker.Loss => (1 <= PerformanceTracker.current_streak t <= PerformanceTracker.max_consecutive_losses t)%nat
     | None => PerformanceTracker.current_streak t = 0%nat
     end.

(** ** MarketAnalyzer *)

Module MarketAnalyzer.









End MarketAnalyzer.

(** ** Dictionaries with string keys *)

(** A Python [dict] keyed by strings: an association list in insertion
    order, in which an assignment to a key already present replaces its
    value in place. *)
Module PyDict.

Definition dict (V : Type) : Type := list (string * V).

Section Operations.

Context {V : Type}.

(** [d.get(k)] *)
Fixpoint lookup (k : string) (d : dict V) : option V :=
  match d with
  | [] => None
  | (k', v) :: rest => if String.eqb k' k then Some v else lookup k rest
  end.

(** [k in d] *)
Definition mem (k : string) (d : dict V) : bool :=
  match lookup k d with
  | Some _ => true
  | None => false
  end.

(** [d[k] = v] *)
Fixpoint store (k : string) (v : V) (d : dict V) : dict V :=
  match d with
  | [] => [(k, v)]
  | (k', v') :: rest =>
      if String.eqb k' k then (k, v) :: rest else (k', v') :: store k v rest
  end.

(** [del d[k]], for a key that is present *)
Definition remove (k : string) (d : dict V) : dict V :=
  filter (fun kv => negb (String.eqb (fst kv) k)) d.

(** [{**d, **extra}] *)
Definition update (d extra : dict V) : dict V :=
  fold_left (fun acc kv => store (fst kv) (snd kv) acc) extra d.

Definition keys (d : dict V) : list string := map fst d.

End Operations.

End PyDict.

(** The values held by the dictionaries of the utilities. *)
Inductive Value :=
| VStr (s : string)
| VNum (q : Q)
| VTime (seconds : Z).

(** ** ConfigValidator.get_safe_config *)

Module ConfigValidator.

Definition sensitive_keys : list string :=
  ["KUCOIN_API_KEY"; "KUCOIN_API_SECRET"; "KUCOIN_API_PASSPHRASE";
   "TELEGRAM_TOKEN"]%string.

Definition masked : Value := VStr "***MASKED***".

(** [for key in sensitive_keys: if key in safe_config: safe_config[key] = ...] *)
Definition mask_key (safe_config : PyDict.dict Value) (key : string)
  : PyDict.dict Value :=
  if PyDict.mem key safe_config then PyDict.store key masked safe_config
  else safe_config.

Definition get_safe_config (config : PyDict.dict Value) : PyDict.dict Value :=
  let safe_config := config in
  fold_left mask_key sensitive_keys safe_config.

Definition is_sensitive (k : string) : bool :=
  existsb (String.eqb k) sensitive_keys.

(** The value of a key after masking, from its value before. *)
Definition mask_if_present (o : option Value) : option Value :=
  option_map (fun _ => masked) o.

End ConfigValidator.

(** ** OrderManager *)

Module OrderManager.

Record Manager := mkManager {
  pending_orders : PyDict.dict (PyDict.dict Value);
  filled_orders : PyDict.dict (PyDict.dict Value);
  cancelled_orders : PyDict.dict (PyDict.dict Value)
}.

(** [__init__] *)
Definition init : Manager := mkManager [] [] [].

(** [now] is the reading of [datetime.now()], in seconds. *)
Definition add_pending_order (self : Manager) (order_id : string)
           (order_data : PyDict.dict Value) (now : Z) : Manager :=
  mkManager
    (PyDict.store order_id
       (PyDict.store "status" (VStr "pending")
          (PyDict.store "created_at" (VTime now) order_data))
       (pending_orders self))
    (filled_orders self) (cancelled_orders self).

Definition mark_filled (self : Manager) (order_id : string)
           (fill_data : PyDict.dict Value) (now : Z)
  : Manager * option (PyDict.dict Value) :=
  match PyDict.lookup order_id (pending_orders self) with
  | Some order =>
      (mkManager
         (PyDict.remove order_id (pending_orders self))
         (PyDict.store order_id
            (PyDict.store "status" (VStr "filled")
               (PyDict.store "filled_at" (VTime now)
                  (PyDict.update order fill_data)))
            (filled_orders self))
         (cancelled_orders self),
       Some order)
  | None => (self, None)
  end.

Definition mark_cancelled (self : Manager) (order_id : string) (now : Z)
  : Manager * option (PyDict.dict Value) :=
  match PyDict.lookup order_id (pending_orders self) with
  | Some order =>
      (mkManager
         (PyDict.remove order_id (pending_orders self))
         (filled_orders self)
         (PyDict.store order_id
            (PyDict.store "status" (VStr "cancelled")
               (PyDict.store "cancelled_at" (VTime now) order))
            (cancelled_orders self)),
       Some order)
  | None => (self, None)
  end.

Definition get_pending_count (self : Manager) : nat :=
  length (pending_orders self).

Definition get_filled_count (self : Manager) : nat :=
  length (filled_orders self).

(** [order.get(key, datetime.now()) < cutoff_time]; [None] stands for the
    [TypeError] of comparing a value that is not a time with a time.
    [later] is the reading of the clock taken for the default. *)
Definition is_old (key : string) (cutoff later : Z) (order : PyDict.dict Value)
  : option bool :=
  match PyDict.lookup key order with
  | Some (VTime t) => Some (t <? cutoff)%Z
  | Some _ => None
  | None => Some (later <? cutoff)%Z
  end.

(** The list comprehension collecting the identifiers of the old orders. *)
Fixpoint old_ids (key : string) (cutoff : Z) (later : string -> Z)
         (orders : PyDict.dict (PyDict.dict Value)) : option (list string) :=
  match orders with
  | [] => Some []
  | (order_id, order) :: rest =>
      match is_old key cutoff (later order_id) order with
      | None => None
      | Some b =>
          match old_ids key cutoff later rest with
          | None => None
          | Some ids => Some (if b then order_id :: ids else ids)
          end
      end
  end.

(** [for order_id in ids: del orders[order_id]] *)
Definition delete_all (ids : list string)
           (orders : PyDict.dict (PyDict.dict Value))
  : PyDict.dict (PyDict.dict Value) :=
  fold_left (fun d order_id => PyDict.remove order_id d) ids orders.

(** [cleanup_old_orders(hours)]; the function has no handler, so that a
    raised exception leaves the manager as mutated so far. *)
Definition cleanup_old_orders (self : Manager) (hours : Z) (now : Z)
           (later : string -> Z) : Outcome unit * Manager :=
  let cutoff_time := (now - hours * 3600)%Z in
  match old_ids "filled_at" cutoff_time later (filled_orders self) with
  | None => (Raise, self)
  | Some old_filled =>
      let self :=
        mkManager (pending_orders self)
                  (delete_all old_filled (filled_orders self))
                  (cancelled_orders self) in
      match old_ids "cancelled_at" cutoff_time later (cancelled_orders self) with
      | None => (Raise, self)
      | Some old_cancelled =>
          (Ret tt,
           mkManager (pending_orders self) (filled_orders self)
                     (delete_all old_cancelled (cancelled_orders self)))
      end
  end.

(** Every record of [orders] carries a time under [key], as the records
    written by [mark_filled] and [mark_cancelled] do. *)
Definition timed (key : string) (orders : PyDict.dict (PyDict.dict Value))
  : Prop :=
  Forall (fun kv => exists t, PyDict.lookup key (snd kv) = Some (VTime t))
         orders.

(** Whether a record carries a time under [key] that is before [cutoff]. *)
Definition is_old_record (key : string) (cutoff : Z)
           (kv : string * PyDict.dict Value) : bool :=
  match PyDict.lookup key (snd kv) with
  | Some (VTime t) => (t <? cutoff)%Z
  | _ => false
  end.

(** The records that are not older than [cutoff]. *)
Definition recent (key : string) (cutoff : Z)
           (orders : PyDict.dict (PyDict.dict Value))
  : PyDict.dict (PyDict.dict Value) :=
  filter (fun kv =>
            match PyDict.lookup key (snd kv) with
            | Some (VTime t) => negb (t <? cutoff)%Z
            | _ => true
            end) orders.

End OrderManager.

(** * Properties *)

Ltac run_bot :=
  unfold exec, bind, try_except, ret, raise, get, modify, lift_option; simpl.

Ltac unfold_setters :=
  unfold set_active_orders, set_grid_config, set_last_atr_update,
    set_orders_file, set_pnl_file, set_outbox, set_requests,
    set_cancel_requests; simpl.



(** ** Numbers *)

Lemma Qltb_lt (a b : Q) : Qltb a b = true <-> a < b.
Proof.
  unfold Qltb. rewrite negb_true_iff. split; intro H.
  - apply Qnot_le_lt. intro Hle. apply Qle_bool_iff in Hle. congruence.
  - destruct (Qle_bool b a) eqn:E; [|reflexivity].
    apply Qle_bool_iff in E. exfalso. exact (Qlt_not_le _ _ H E).
Qed.

Lemma Qltb_ge (a b : Q) : Qltb a b = false <-> b <= a.
Proof.
  unfold Qltb. rewrite negb_false_iff. apply Qle_bool_iff.
Qed.

Lemma Qmax_if (a b : Q) : Qmax a b = if Qltb a b then b else a.
Proof.
  unfold Qmax, GenericMinMax.gmax.
  destruct (Qcompare a b) eqn:C; destruct (Qltb a b) eqn:E;
    try reflexivity; exfalso.
  - apply Qltb_lt in E. apply Qeq_alt in C. rewrite C in E.
    exact (Qlt_irrefl _ E).
  - apply Qltb_ge in E. apply Qlt_alt in C. exact (Qlt_not_le _ _ C E).
  - apply Qltb_lt in E. apply Qgt_alt in C.
    exact (Qlt_irrefl _ (Qlt_trans _ _ _ E C)).
Qed.

Lemma pymax3_Qmax (a b c : Q) : pymax3 a b c = Qmax (Qmax a b) c.
Proof.
  unfold pymax3. now rewrite (Qmax_if (Qmax a b) c), (Qmax_if a b).
Qed.

Lemma pysum_acc (xs : list Q) (a : Q) :
  fold_left Qplus xs a == a + fold_right Qplus 0 xs.
Proof.
  revert a. induction xs as [|x xs IH]; intro a; simpl.
  - ring.
  - rewrite IH. ring.
Qed.

Lemma pysum_fold_right (xs : list Q) : pysum xs == fold_right Qplus 0 xs.
Proof.
  unfold pysum. rewrite pysum_acc. ring.
Qed.

Lemma Qnat_pos (n : nat) : (1 <= n)%nat -> 0 < Qnat n.
Proof.
  intro H. unfold Qnat, Qlt. simpl. lia.
Qed.

Lemma pydiv_Qnat (x : Q) (n : nat) :
  (1 <= n)%nat -> pydiv x (Qnat n) = Some (x / Qnat n).
Proof.
  intro H. unfold pydiv.
  destruct (Qeq_bool (Qnat n) 0) eqn:E; [|reflexivity].
  apply Qeq_bool_iff in E. pose proof (Qnat_pos n H) as P.
  rewrite E in P. exfalso. exact (Qlt_irrefl _ P).
Qed.

(** ** ATRCalculator.calculate_atr *)

Section CalculateAtr.

Import ATRCalculator.

Variables highs lows closes : list Q.
Hypothesis lows_len : length lows = length highs.
Hypothesis closes_len : length closes = length highs.

Lemma true_range_at_spec (i : nat) :
  (1 <= i < length highs)%nat ->
  true_range_at highs lows closes i
  = Some (spec_true_range highs lows closes i).
Proof.
  intros [H1 H2]. unfold true_range_at, spec_true_range.
  rewrite (nth_error_nth' highs 0) by lia.
  rewrite (nth_error_nth' lows 0) by lia.
  rewrite (nth_error_nth' closes 0) by lia.
  now rewrite pymax3_Qmax.
Qed.

Lemma collect_true_ranges_spec (idx : list nat) :
  (forall i, In i idx -> (1 <= i < length highs)%nat) ->
  collect_true_ranges highs lows closes idx
  = Some (map (spec_true_range highs lows closes) idx).
Proof.
  induction idx as [|i idx IH]; intro Hidx; simpl.
  - reflexivity.
  - rewrite true_range_at_spec by (apply Hidx; now left).
    rewrite IH by (intros j Hj; apply Hidx; now right).
    reflexivity.
Qed.

Lemma spec_sum_fold_right (f : nat -> Q) (from count : nat) :
  spec_sum f from count = fold_right Qplus 0 (map f (seq from count)).
Proof.
  revert from. induction count as [|k IH]; intro from; simpl.
  - reflexivity.
  - now rewrite IH.
Qed.

Lemma last_slice_true_ranges (f : nat -> Q) (N : nat) :
  (1 <= N)%nat -> (N + 1 <= length highs)%nat ->
  last_slice N (map f (seq 1 (length highs - 1)))
  = map f (seq (length highs - N) N).
Proof.
  intros HN Hlen. unfold last_slice.
  destruct N as [|n]; [lia|].
  rewrite length_map, length_seq, skipn_map, skipn_seq.
  f_equal. f_equal; lia.
Qed.

Lemma calculate_atr_long (N : nat) :
  (1 <= N)%nat -> (N + 1 <= length highs)%nat ->
  calculate_atr highs lows closes N
  = Some (pysum (map (spec_true_range highs lows closes)
                     (seq (length highs - N) N)) / Qnat N).
Proof.
  intros HN Hlen. unfold calculate_atr.
  destruct (Nat.ltb_spec (length highs) (N + 1)) as [Hlt|_]; [lia|].
  rewrite collect_true_ranges_spec.
  2:{ intros i Hi. apply in_seq in Hi. lia. }
  rewrite length_map, length_seq.
  destruct (Nat.ltb_spec (length highs - 1) N) as [Hlt|_]; [lia|].
  rewrite last_slice_true_ranges by assumption.
  now apply pydiv_Qnat.
Qed.

Lemma calculate_atr_short (N : nat) :
  (length highs < N + 1)%nat -> calculate_atr highs lows closes N = Some 0.
Proof.
  intro Hlt. unfold calculate_atr.
  destruct (Nat.ltb_spec (length highs) (N + 1)) as [_|Hge]; [reflexivity|lia].
Qed.

Lemma calculate_atr_refines (N : nat) :
  (1 <= N)%nat ->
  exists r, calculate_atr highs lows closes N = Some r
            /\ r == spec_atr highs lows closes N.
Proof.
  intro HN. unfold spec_atr.
  destruct (Nat.ltb_spec (length highs) (N + 1)) as [Hlt|Hge].
  - exists 0. split; [now apply calculate_atr_short | reflexivity].
  - eexists. split; [now apply calculate_atr_long|].
    now rewrite pysum_fold_right, spec_sum_fold_right.
Qed.

End CalculateAtr.

Lemma pymax3_zero (a b c : Q) :
  a == 0 -> b == 0 -> c == 0 -> pymax3 a b c == 0.
Proof.
  intros Ha Hb Hc. unfold pymax3.
  destruct (Qltb a b); destruct (Qltb _ c); assumption.
Qed.

Lemma spec_true_range_constant (c : Q) (n i : nat) :
  (1 <= i < n)%nat ->
  ATRCalculator.spec_true_range (repeat c n) (repeat c n) (repeat c n) i == 0.
Proof.
  intros [H1 H2]. unfold ATRCalculator.spec_true_range.
  rewrite !nth_repeat_lt by lia.
  rewrite <- pymax3_Qmax.
  assert (Z : c - c == 0) by ring.
  apply pymax3_zero; [assumption | | ]; rewrite Z; reflexivity.
Qed.

Lemma spec_sum_zero (f : nat -> Q) (from count : nat) :
  (forall i, (from <= i < from + count)%nat -> f i == 0) ->
  ATRCalculator.spec_sum f from count == 0.
Proof.
  revert from. induction count as [|k IH]; intros from Hf; simpl.
  - reflexivity.
  - rewrite Hf by lia. rewrite IH by (intros i Hi; apply Hf; lia). ring.
Qed.

Lemma spec_atr_constant (c : Q) (n N : nat) :
  ATRCalculator.spec_atr (repeat c n) (repeat c n) (repeat c n) N == 0.
Proof.
  unfold ATRCalculator.spec_atr. rewrite repeat_length.
  destruct (Nat.ltb_spec n (N + 1)) as [Hlt|Hge]; [reflexivity|].
  rewrite spec_sum_zero.
  - unfold Qdiv. ring.
  - intros i Hi. apply spec_true_range_constant. lia.
Qed.

(** C7. For high/low/close sequences of one length and a period [N >= 1],
    [calculate_atr] returns a value (it does not raise), and that value is
    the trailing mean of the specification: [0] when there are fewer than
    [N + 1] samples, otherwise the simple average of the last [N] true
    ranges [max(high[i]-low[i], |high[i]-close[i-1]|, |low[i]-close[i-1]|)].
    For a constant-price sequence the value is [0]. *)
Theorem calculate_atr_trailing_mean (highs lows closes : list Q) (N : nat) :
  (1 <= N)%nat ->
  length lows = length highs ->
  length closes = length highs ->
  (exists r, ATRCalculator.calculate_atr highs lows closes N = Some r
             /\ r == ATRCalculator.spec_atr highs lows closes N)
  /\ ((length highs < N + 1)%nat ->
      ATRCalculator.calculate_atr highs lows closes N = Some 0)
  /\ (forall c, highs = repeat c (length highs) ->
                lows = highs -> closes = highs ->
      exists r, ATRCalculator.calculate_atr highs lows closes N = Some r
                /\ r == 0).
Proof.
  intros HN Hl Hc. split; [|split].
  - now apply calculate_atr_refines.
  - now apply calculate_atr_short.
  - intros c Hh El Ec.
    destruct (calculate_atr_refines highs lows closes Hl Hc N HN)
      as [r [Hr Hs]].
    exists r. split; [assumption|].
    rewrite Hs. subst lows closes.
    remember (length highs) as n eqn:En. rewrite Hh.
    apply spec_atr_constant.
Qed.

Lemma calculate_atr_trailing_mean_witness :
  (exists r, ATRCalculator.calculate_atr [3; 5; 4] [1; 2; 3] [2; 4; 3] 2
             = Some r
             /\ r == ATRCalculator.spec_atr [3; 5; 4] [1; 2; 3] [2; 4; 3] 2)
  /\ ((length [3; 5; 4] < 2 + 1)%nat ->
      ATRCalculator.calculate_atr [3; 5; 4] [1; 2; 3] [2; 4; 3] 2 = Some 0)
  /\ (forall c, [3; 5; 4] = repeat c (length [3; 5; 4]) ->
                [1; 2; 3] = [3; 5; 4] -> [2; 4; 3] = [3; 5; 4] ->
      exists r, ATRCalculator.calculate_atr [3; 5; 4] [1; 2; 3] [2; 4; 3] 2
                = Some r
                /\ r == 0).
Proof.
  apply (calculate_atr_trailing_mean [3; 5; 4] [1; 2; 3] [2; 4; 3] 2);
    [lia | reflexivity | reflexivity].
Defined.

(** ** Running bot operations *)

Lemma pydiv_nonzero (a b : Q) : ~ b == 0 -> pydiv a b = Some (a / b).
Proof.
  intro H. unfold pydiv. destruct (Qeq_bool b 0) eqn:E; [|reflexivity].
  apply Qeq_bool_iff in E. contradiction.
Qed.

Lemma pydiv_pos (a b : Q) : 0 < b -> pydiv a b = Some (a / b).
Proof.
  intro H. apply pydiv_nonzero. intro E. rewrite E in H.
  exact (Qlt_irrefl _ H).
Qed.

Lemma pydiv_zero (a b : Q) : b == 0 -> pydiv a b = None.
Proof.
  intro H. unfold pydiv. apply Qeq_bool_iff in H. now rewrite H.
Qed.

Lemma Qdiv_pos (a b : Q) : 0 < a -> 0 < b -> 0 < a / b.
Proof.
  intros Ha Hb. unfold Qdiv. apply Qmult_lt_0_compat; [assumption|].
  now apply Qinv_lt_0_compat.
Qed.

Lemma inject_Z_pos (z : Z) : (0 < z)%Z -> 0 < inject_Z z.
Proof.
  intro H. unfold Qlt. simpl. lia.
Qed.

(** ** calculate_grid_parameters *)

(** C8, as stated, fails: with lower = -1 < upper = 1, gridSize = 2 and
    budget = 100 the increment is 25 / (-1), which is negative. *)
Lemma grid_parameters_negative_lower_bound :
  let self := with_grid 2 100 sample_settings in
  -1 < 1 /\ (2 <= cfg_grid_size self)%Z /\ 0 < cfg_budget self
  /\ ~ (exists spread increment s',
           GridTradingBot.calculate_grid_parameters self (-1) 1
             (GridTradingBot.init 0) = (Ret (spread, increment), s')
           /\ 0 < spread /\ 0 < increment).
Proof.
  cbv zeta. repeat split; try reflexivity.
  intros (sp & inc & s' & H & _ & Hinc).
  vm_compute in H. inversion H; subst. vm_compute in Hinc. discriminate.
Qed.

(** C8, amended.  For [0 < lower < upper], [gridSize >= 2] and
    [budget > 0], [calculate_grid_parameters] returns (it does not raise),
    leaves the bot unchanged, and yields
    [spread = (upper - lower) / gridSize > 0] and
    [increment = (budget / (gridSize * 2)) / lower > 0]. *)
Theorem grid_parameters_positive (self : Settings) (lower upper : Q) (s : Bot) :
  0 < lower -> lower < upper ->
  (2 <= cfg_grid_size self)%Z -> 0 < cfg_budget self ->
  exists spread increment,
    GridTradingBot.calculate_grid_parameters self lower upper s
    = (Ret (spread, increment), s)
    /\ spread = (upper - lower) / inject_Z (cfg_grid_size self)
    /\ 0 < spread
    /\ increment
       = (cfg_budget self / inject_Z (cfg_grid_size self * 2)) / lower
    /\ 0 < increment.
Proof.
  intros Hlo Hlu Hgs Hb.
  assert (G1 : 0 < inject_Z (cfg_grid_size self)) by (apply inject_Z_pos; lia).
  assert (G2 : 0 < inject_Z (cfg_grid_size self * 2))
    by (apply inject_Z_pos; lia).
  exists ((upper - lower) / inject_Z (cfg_grid_size self)).
  exists ((cfg_budget self / inject_Z (cfg_grid_size self * 2)) / lower).
  split; [|split; [reflexivity|split; [|split; [reflexivity|]]]].
  - unfold GridTradingBot.calculate_grid_parameters,
      GridTradingBot.position_size_of.
    rewrite (pydiv_pos _ _ G1), (pydiv_pos _ _ G2). run_bot.
    now rewrite (pydiv_pos _ _ Hlo).
  - apply Qdiv_pos; [lra | assumption].
  - apply Qdiv_pos; [apply Qdiv_pos|]; assumption.
Qed.

Lemma grid_parameters_positive_witness :
  exists spread increment,
    GridTradingBot.calculate_grid_parameters sample_settings 96 104
      (GridTradingBot.init 0)
    = (Ret (spread, increment), GridTradingBot.init 0)
    /\ spread = (104 - 96) / inject_Z (cfg_grid_size sample_settings)
    /\ 0 < spread
    /\ increment
       = (cfg_budget sample_settings
          / inject_Z (cfg_grid_size sample_settings * 2)) / 96
    /\ 0 < increment.
Proof.
  apply (grid_parameters_positive sample_settings 96 104 (GridTradingBot.init 0));
    [reflexivity | reflexivity | simpl; lia | reflexivity].
Defined.

(** ** calculate_atr_bounds *)

Lemma calculate_atr_bounds_no_klines (current_price : Q) (s : Bot) :
  GridTradingBot.calculate_atr_bounds [] current_price s
  = (Ret (current_price * 0.95, current_price * 1.05), s).
Proof. reflexivity. Qed.

(** C4 at a failing input.  With fourteen candles (one fewer than
    [calculate_atr] needs for its period of 14) the ATR is the
    insufficient-data value [0]; [calculate_atr_bounds] does not fall back
    but returns the band [(price, price)], here [(100, 100)] and not
    [(95, 105)]. *)
Theorem calculate_atr_bounds_zero_atr :
  let klines := repeat flat_candle 14 in
  ATRCalculator.calculate_atr (map k_high klines) (map k_low klines)
                              (map k_close klines) 14 = Some 0
  /\ exists lower upper s',
       GridTradingBot.calculate_atr_bounds klines 100 (GridTradingBot.init 0)
       = (Ret (lower, upper), s')
       /\ lower == 100 /\ upper == 100
       /\ ~ lower == 100 * 0.95 /\ ~ upper == 100 * 1.05.
Proof.
  cbv zeta. split; [reflexivity|].
  eexists _, _, _. split; [reflexivity|].
  repeat split; try reflexivity; intro H; vm_compute in H; discriminate.
Qed.

(** ** PerformanceTracker.add_trade *)

Section Streaks.

Import PerformanceTracker.

Lemma after_snoc (profits : list Q) (profit : Q) :
  after (profits ++ [profit]) = add_trade (after profits) profit.
Proof.
  unfold after. now rewrite fold_left_app.
Qed.

Lemma TradeType_eqb_refl (t : TradeType) : TradeType_eqb t t = true.
Proof. now destruct t. Qed.

Lemma trailing_run_snoc (l : list TradeType) (x : TradeType) :
  trailing_run (l ++ [x])
  = match last_outcome l with
    | Some t => if TradeType_eqb t x then S (trailing_run l) else 1%nat
    | None => 1%nat
    end.
Proof.
  unfold trailing_run, last_outcome. rewrite rev_unit.
  destruct (rev l) as [|t r]; simpl; [reflexivity|].
  destruct (TradeType_eqb t x) eqn:E; [|reflexivity].
  destruct t, x; try discriminate; reflexivity.
Qed.

Lemma last_outcome_snoc (l : list TradeType) (x : TradeType) :
  last_outcome (l ++ [x]) = Some x.
Proof.
  unfold last_outcome. now rewrite rev_unit.
Qed.

Lemma add_trade_streak (self : Tracker) (profit : Q) :
  current_streak_type (add_trade self profit) = Some (outcome_of profit)
  /\ current_streak (add_trade self profit)
     = match current_streak_type self with
       | Some t => if TradeType_eqb t (outcome_of profit)
                   then (current_streak self + 1)%nat else 1%nat
       | None => 1%nat
       end.
Proof.
  unfold add_trade, outcome_of, _update_streak.
  destruct (Qltb 0 profit); simpl;
    destruct (current_streak_type self) as [t|]; simpl; auto;
    destruct (TradeType_eqb t _); auto.
Qed.

Lemma after_streak (profits : list Q) :
  current_streak_type (after profits) = last_outcome (map outcome_of profits)
  /\ current_streak (after profits) = trailing_run (map outcome_of profits).
Proof.
  induction profits as [|p ps [IHt IHs]] using rev_ind.
  - split; reflexivity.
  - rewrite after_snoc, map_app. simpl map.
    destruct (add_trade_streak (after ps) p) as [Ht Hs].
    rewrite Ht, Hs, last_outcome_snoc, trailing_run_snoc, IHt, IHs.
    split; [reflexivity|].
    destruct (last_outcome (map outcome_of ps)) as [t|]; [|reflexivity].
    destruct (TradeType_eqb t (outcome_of p)); [lia | reflexivity].
Qed.

Lemma add_trade_counts (self : Tracker) (profit : Q) :
  winning_trades (add_trade self profit)
  = (winning_trades self + if Qltb 0 profit then 1 else 0)%nat
  /\ losing_trades (add_trade self profit)
     = (losing_trades self + if Qle_bool profit 0 then 1 else 0)%nat.
Proof.
  unfold add_trade, _update_streak, Qltb.
  destruct (Qle_bool profit 0); simpl; split; lia.
Qed.

Lemma after_counts (profits : list Q) :
  winning_trades (after profits)
  = length (filter (fun p => Qltb 0 p) profits)
  /\ losing_trades (after profits)
     = length (filter (fun p => Qle_bool p 0) profits).
Proof.
  induction profits as [|p ps [IHw IHl]] using rev_ind.
  - split; reflexivity.
  - rewrite after_snoc, !filter_app, !length_app.
    destruct (add_trade_counts (after ps) p) as [Hw Hl].
    rewrite Hw, Hl, IHw, IHl. simpl.
    unfold Qltb. destruct (Qle_bool p 0); simpl; split; reflexivity.
Qed.

Lemma add_trade_max_monotone (self : Tracker) (profit : Q) :
  (max_consecutive_wins self
   <= max_consecutive_wins (add_trade self profit))%nat
  /\ (max_consecutive_losses self
      <= max_consecutive_losses (add_trade self profit))%nat.
Proof.
  unfold add_trade, _update_streak.
  destruct (Qltb 0 profit); simpl; split; lia.
Qed.

End Streaks.

(** C9.  After any sequence of [add_trade] calls on a fresh tracker: the
    trades with [profit > 0] are the wins and all the others (zero
    included) the losses; [current_streak] is the number of trailing
    outcomes of the type of the last one; and one more call never decreases
    [max_consecutive_wins] nor [max_consecutive_losses]. *)
Theorem add_trade_streak_invariant (profits : list Q) (profit : Q) :
  let self := PerformanceTracker.after profits in
  PerformanceTracker.winning_trades self
  = length (filter (fun p => Qltb 0 p) profits)
  /\ PerformanceTracker.losing_trades self
     = length (filter (fun p => Qle_bool p 0) profits)
  /\ PerformanceTracker.winning_trades (PerformanceTracker.after [0]) = 0%nat
  /\ PerformanceTracker.losing_trades (PerformanceTracker.after [0]) = 1%nat
  /\ PerformanceTracker.current_streak self
     = PerformanceTracker.trailing_run
         (map PerformanceTracker.outcome_of profits)
  /\ (PerformanceTracker.max_consecutive_wins self
      <= PerformanceTracker.max_consecutive_wins
           (PerformanceTracker.add_trade self profit))%nat
  /\ (PerformanceTracker.max_consecutive_losses self
      <= PerformanceTracker.max_consecutive_losses
           (PerformanceTracker.add_trade self profit))%nat.
Proof.
  cbv zeta.
  destruct (after_counts profits) as [Hw Hl].
  destruct (after_streak profits) as [_ Hs].
  destruct (add_trade_max_monotone (PerformanceTracker.after profits) profit)
    as [Mw Ml].
  repeat split; assumption || reflexivity.
Qed.

Example streak_after_mixed_trades :
  let self := PerformanceTracker.after [1; 2; -1; 0; -3; 5] in
  PerformanceTracker.current_streak self = 1%nat
  /\ PerformanceTracker.max_consecutive_wins self = 2%nat
  /\ PerformanceTracker.max_consecutive_losses self = 3%nat.
Proof. repeat split. Qed.

(** ** The ladder of create_initial_orders *)

Section LadderLoop.

Import GridTradingBot Ladder.

Variable self : Settings.
Variable cfg : GridConfig.
Variable current_price : Q.
Variable clock : Side -> nat -> Oracle.

Lemma side_orders_nil (sd : Side) :
  side_orders self cfg sd current_price clock [] = [].
Proof.
  unfold side_orders. now destruct (cfg_sandbox self).
Qed.

Lemma side_orders_cons (sd : Side) (i : nat) (rest : list nat) :
  side_orders self cfg sd current_price clock (i :: rest)
  = (if rung_inside cfg sd (rung_price cfg sd current_price i)
        && cfg_sandbox self
     then [simulated_order self (clock sd i) sd
             (rung_price cfg sd current_price i) (increment cfg)]
     else [])
    ++ side_orders self cfg sd current_price clock rest.
Proof.
  unfold side_orders, rungs. simpl.
  destruct (rung_inside cfg sd (rung_price cfg sd current_price i));
    destruct (cfg_sandbox self); reflexivity.
Qed.

Lemma side_requests_cons (sd : Side) (i : nat) (rest : list nat) :
  side_requests cfg sd current_price (i :: rest)
  = (if rung_inside cfg sd (rung_price cfg sd current_price i)
     then [rung_request cfg sd current_price i] else [])
    ++ side_requests cfg sd current_price rest.
Proof.
  unfold side_requests, rungs. simpl.
  destruct (rung_inside cfg sd (rung_price cfg sd current_price i));
    reflexivity.
Qed.

Lemma ladder_loop_run (sd : Side) (idx : list nat) :
  forall (n : nat) (s : Bot),
    ladder_loop self cfg sd current_price clock idx n s
    = (Ret (n + length (side_orders self cfg sd current_price clock idx))%nat,
       mkBot (active_orders s ++ side_orders self cfg sd current_price clock idx)
             (grid_config s) (last_atr_update s) (orders_file s) (pnl_file s)
             (outbox s)
             (requests s ++ side_requests cfg sd current_price idx)
             (cancel_requests s)).
Proof.
  induction idx as [|i rest IH]; intros n s.
  - rewrite side_orders_nil. unfold side_requests, rungs. simpl.
    rewrite !app_nil_r, Nat.add_0_r. now destruct s.
  - rewrite side_orders_cons, side_requests_cons. simpl ladder_loop.
    destruct (rung_inside cfg sd (rung_price cfg sd current_price i)); simpl.
    + unfold place_order, append_order. run_bot.
      destruct (cfg_sandbox self); simpl.
      * rewrite IH. simpl. rewrite <- !app_assoc. simpl.
        do 2 f_equal. lia.
      * destruct (exchange_reply (clock sd i)); rewrite IH; simpl;
          rewrite <- !app_assoc; reflexivity.
    + apply IH.
Qed.

Lemma create_initial_orders_run (s : Bot) :
  grid_config s = Some cfg ->
  create_initial_orders self current_price clock s
  = (Ret tt,
     mkBot (active_orders s ++ ladder_orders self cfg current_price clock)
           (Some cfg) (last_atr_update s)
           (active_orders s ++ ladder_orders self cfg current_price clock)
           (pnl_file s)
           (outbox s
            ++ [NInitialOrders
                  (length (ladder_orders self cfg current_price clock))
                  current_price])
           (requests s ++ ladder_requests self cfg current_price)
           (cancel_requests s)).
Proof.
  intro Hcfg. unfold create_initial_orders. run_bot. rewrite Hcfg.
  rewrite ladder_loop_run. rewrite ladder_loop_run. simpl.
  unfold send_telegram_message, save_orders, ladder_orders, ladder_requests.
  run_bot. rewrite Hcfg, <- !app_assoc, length_app. reflexivity.
Qed.

Lemma side_requests_within (sd : Side) (idx : list nat) (r : Request) :
  In r (side_requests cfg sd current_price idx) ->
  r_side r = sd /\ within_side_bound cfg sd (r_price r)
  /\ exists i, In i idx /\ r_price r = rung_price cfg sd current_price i.
Proof.
  unfold side_requests, rungs. intro H.
  apply in_map_iff in H. destruct H as [i [<- Hi]].
  apply filter_In in Hi. destruct Hi as [Hin Hb].
  split; [reflexivity|]. split; [|now exists i].
  destruct sd; simpl in *; now apply Qle_bool_iff.
Qed.

Lemma side_orders_within (sd : Side) (idx : list nat) (o : Order) :
  In o (side_orders self cfg sd current_price clock idx) ->
  side o = sd /\ within_side_bound cfg sd (price o)
  /\ exists i, In i idx /\ price o = rung_price cfg sd current_price i.
Proof.
  unfold side_orders, rungs. destruct (cfg_sandbox self); [|contradiction].
  intro H. apply in_map_iff in H. destruct H as [i [<- Hi]].
  apply filter_In in Hi. destruct Hi as [Hin Hb].
  split; [reflexivity|]. split; [|now exists i].
  destruct sd; simpl in *; now apply Qle_bool_iff.
Qed.

(** With a non-negative spread and a reference price inside the bounds,
    a rung that passes its own test is inside both bounds. *)
Lemma rung_price_opposite_bound (sd : Side) (i : nat) :
  0 <= spread cfg -> within_bounds cfg current_price ->
  within_side_bound cfg sd (rung_price cfg sd current_price i) ->
  within_bounds cfg (rung_price cfg sd current_price i).
Proof.
  intros Hs [Hl Hu] Hw.
  assert (Hn : 0 <= Qnat (i + 1) * spread cfg).
  { apply Qmult_le_0_compat; [|assumption]. unfold Qnat, Qle. simpl. lia. }
  unfold within_bounds.
  destruct sd; simpl in *; split; try assumption; lra.
Qed.

End LadderLoop.

(** ** handle_filled_order *)

Section HandleFilledOrder.

Import GridTradingBot Mirror.

Variable self : Settings.
Variable orc : Oracle.
Variable cfg : GridConfig.
Variable filled_order : Order.

Lemma handle_filled_order_run (s : Bot) :
  grid_config s = Some cfg ->
  handle_filled_order self orc filled_order s
  = (Ret tt,
     if placed self cfg filled_order then
       mkBot (remove_order (order_id filled_order)
                (active_orders s ++ [mirror_order self orc cfg filled_order]))
             (Some cfg) (last_atr_update s)
             (active_orders s ++ [mirror_order self orc cfg filled_order])
             (Some (ledger_with (now_stamp orc) (profit_of cfg filled_order)
                                (load_pnl s)))
             (outbox s
              ++ [NMirror filled_order (fst (mirror_of cfg filled_order))
                          (snd (mirror_of cfg filled_order))
                          (profit_of cfg filled_order)])
             (requests s ++ [mirror_request cfg filled_order])
             (cancel_requests s)
     else
       mkBot (remove_order (order_id filled_order) (active_orders s))
             (Some cfg) (last_atr_update s) (orders_file s) (pnl_file s)
             (outbox s)
             (if requested cfg filled_order
              then requests s ++ [mirror_request cfg filled_order]
              else requests s)
             (cancel_requests s)).
Proof.
  intro Hcfg. unfold handle_filled_order, placed, requested. run_bot.
  rewrite Hcfg. simpl.
  destruct (mirror_of cfg filled_order) as [ms mp] eqn:Em. simpl.
  destruct (mirror_in_bounds cfg ms mp); simpl.
  - unfold place_order. run_bot.
    destruct (cfg_sandbox self); simpl.
    + unfold mirror_order, mirror_request, profit_of, ledger_with. rewrite Em.
      unfold_setters. rewrite Hcfg. reflexivity.
    + unfold mirror_request. rewrite Em.
      destruct (exchange_reply orc); unfold_setters; rewrite Hcfg;
        reflexivity.
  - unfold_setters. rewrite Hcfg. reflexivity.
Qed.

Lemma handle_filled_order_requests (s : Bot) :
  grid_config s = Some cfg ->
  requests (exec (handle_filled_order self orc filled_order) s)
  = requests s ++ (if requested cfg filled_order
                   then [mirror_request cfg filled_order] else []).
Proof.
  intro Hcfg. unfold exec. rewrite (handle_filled_order_run s Hcfg).
  unfold placed.
  destruct (requested cfg filled_order); destruct (cfg_sandbox self); simpl;
    rewrite ?app_nil_r; reflexivity.
Qed.

Lemma handle_filled_order_active (s : Bot) :
  grid_config s = Some cfg ->
  active_orders (exec (handle_filled_order self orc filled_order) s)
  = remove_order (order_id filled_order)
      (active_orders s ++ (if placed self cfg filled_order
                           then [mirror_order self orc cfg filled_order]
                           else [])).
Proof.
  intro Hcfg. unfold exec. rewrite (handle_filled_order_run s Hcfg).
  destruct (placed self cfg filled_order); simpl; rewrite ?app_nil_r;
    reflexivity.
Qed.

Lemma handle_filled_order_pnl (s : Bot) :
  grid_config s = Some cfg ->
  pnl_file (exec (handle_filled_order self orc filled_order) s)
  = if placed self cfg filled_order
    then Some (ledger_with (now_stamp orc) (profit_of cfg filled_order)
                           (load_pnl s))
    else pnl_file s.
Proof.
  intro Hcfg. unfold exec. rewrite (handle_filled_order_run s Hcfg).
  destruct (placed self cfg filled_order); reflexivity.
Qed.

Lemma remove_order_spec (id : string) (orders : list Order) (x : Order) :
  In x (remove_order id orders) <-> In x orders /\ order_id x <> id.
Proof.
  unfold remove_order. rewrite filter_In, negb_true_iff, String.eqb_neq.
  reflexivity.
Qed.

Lemma requested_within_side_bound :
  requested cfg filled_order = true ->
  within_side_bound cfg (fst (mirror_of cfg filled_order))
                    (snd (mirror_of cfg filled_order)).
Proof.
  unfold requested, mirror_in_bounds.
  destruct (fst (mirror_of cfg filled_order)); simpl;
    rewrite ?orb_false_r; apply Qle_bool_iff.
Qed.

End HandleFilledOrder.



(** C3, as stated, fails: when the ticker reads 105 at the time the ladder
    is built for the bounds (96, 104), the buy rungs 104.2 down to 101 pass
    their only test (against the lower bound) and the first is placed
    above the upper bound. *)
Lemma ladder_buy_above_upper_bound :
  exists cfg,
    grid_config scenario_105 = Some cfg
    /\ lower_bound cfg == 96 /\ upper_bound cfg == 104
    /\ ~ (forall x, In x (active_orders scenario_105) ->
                    within_bounds cfg (price x)).
Proof.
  eexists. split; [vm_compute; reflexivity|].
  split; [vm_compute; reflexivity|]. split; [vm_compute; reflexivity|].
  intro H.
  assert (Hx : In (hd filled_buy (active_orders scenario_105))
                  (active_orders scenario_105))
    by (vm_compute; left; reflexivity).
  apply H in Hx. destruct Hx as [_ Hu]. vm_compute in Hu. now apply Hu.
Qed.

(** C3, amended.  Every order that [create_initial_orders] or
    [handle_filled_order] requests or adds to the active orders respects
    the bound of its own side: a buy is at or above [lower_bound], a sell
    at or below [upper_bound].  The other bound is not tested; it holds as
    well when the spread is non-negative and the reference price (the
    ticker price for the ladder, the filled price for a mirror) is within
    the bounds. *)
Theorem placed_orders_within_side_bound
        (self : Settings) (orc : Oracle) (clock : Side -> nat -> Oracle)
        (current_price : Q) (cfg : GridConfig) (filled_order : Order)
        (s : Bot) :
  grid_config s = Some cfg ->
  let ladder :=
    exec (GridTradingBot.create_initial_orders self current_price clock) s in
  let mirrored :=
    exec (GridTradingBot.handle_filled_order self orc filled_order) s in
  (forall r, In r (requests ladder) ->
     In r (requests s) \/ within_side_bound cfg (r_side r) (r_price r))
  /\ (forall x, In x (active_orders ladder) ->
        In x (active_orders s) \/ within_side_bound cfg (side x) (price x))
  /\ (forall r, In r (requests mirrored) ->
        In r (requests s) \/ within_side_bound cfg (r_side r) (r_price r))
  /\ (forall x, In x (active_orders mirrored) ->
        In x (active_orders s) \/ within_side_bound cfg (side x) (price x))
  /\ (0 <= spread cfg -> within_bounds cfg current_price ->
      forall r, In r (requests ladder) ->
        In r (requests s) \/ within_bounds cfg (r_price r))
  /\ (0 <= spread cfg -> within_bounds cfg (price filled_order) ->
      forall r, In r (requests mirrored) ->
        In r (requests s) \/ within_bounds cfg (r_price r)).
Proof.
  intros Hcfg ladder mirrored. subst ladder mirrored.
  rewrite (handle_filled_order_requests self orc cfg filled_order s Hcfg).
  rewrite (handle_filled_order_active self orc cfg filled_order s Hcfg).
  unfold exec.
  rewrite (create_initial_orders_run self cfg current_price clock s Hcfg).
  simpl.
  assert (Hreq : forall r,
             In r (Ladder.ladder_requests self cfg current_price) ->
             exists sd i, r_side r = sd
                          /\ within_side_bound cfg sd (r_price r)
                          /\ r_price r
                             = GridTradingBot.rung_price cfg sd current_price i).
  { intros r Hr. unfold Ladder.ladder_requests in Hr.
    apply in_app_or in Hr.
    destruct Hr as [Hr|Hr];
      apply side_requests_within in Hr;
      destruct Hr as (Hs & Hw & i & _ & Hp); eauto. }
  assert (Hmir : forall r,
             In r (requests s ++ (if Mirror.requested cfg filled_order
                                  then [Mirror.mirror_request cfg filled_order]
                                  else [])) ->
             In r (requests s)
             \/ (r = Mirror.mirror_request cfg filled_order
                 /\ Mirror.requested cfg filled_order = true)).
  { intros r Hr. apply in_app_or in Hr. destruct Hr as [Hr|Hr]; [now left|].
    destruct (Mirror.requested cfg filled_order); [|contradiction].
    destruct Hr as [<-|[]]. now right. }
  split; [|split; [|split; [|split; [|split]]]].
  - intros r Hr. apply in_app_or in Hr. destruct Hr as [Hr|Hr]; [now left|].
    right. destruct (Hreq r Hr) as (sd & i & <- & Hw & _). exact Hw.
  - intros x Hx. apply in_app_or in Hx. destruct Hx as [Hx|Hx]; [now left|].
    right. unfold Ladder.ladder_orders in Hx. apply in_app_or in Hx.
    destruct Hx as [Hx|Hx]; apply side_orders_within in Hx;
      destruct Hx as (-> & Hw & _); exact Hw.
  - intros r Hr. destruct (Hmir r Hr) as [Hold|[-> Hrq]]; [now left|].
    right. now apply requested_within_side_bound.
  - intros x Hx. apply remove_order_spec in Hx. destruct Hx as [Hx _].
    apply in_app_or in Hx. destruct Hx as [Hx|Hx]; [now left|].
    unfold Mirror.placed in Hx.
    destruct (Mirror.requested cfg filled_order) eqn:Erq;
      [|contradiction].
    destruct (cfg_sandbox self); [|contradiction].
    destruct Hx as [<-|[]]. right. now apply requested_within_side_bound.
  - intros Hsp Hcp r Hr. apply in_app_or in Hr.
    destruct Hr as [Hr|Hr]; [now left|].
    right. destruct (Hreq r Hr) as (sd & i & _ & Hw & Hp).
    rewrite Hp in *. now apply rung_price_opposite_bound.
  - intros Hsp [Hl Hu] r Hr.
    destruct (Hmir r Hr) as [Hold|[-> Hrq]]; [now left|].
    right. apply requested_within_side_bound in Hrq.
    unfold Mirror.mirror_request, within_bounds. simpl.
    unfold GridTradingBot.mirror_of in *.
    destruct (side filled_order); simpl in *; split; try assumption; lra.
Qed.

Lemma placed_orders_within_side_bound_witness :
  grid_config sample_bot = Some sample_cfg
  /\ forall r,
       In r (requests
               (exec (GridTradingBot.handle_filled_order sample_settings
                        (mkOracle "t1" None) filled_buy) sample_bot)) ->
       In r (requests sample_bot)
       \/ within_side_bound sample_cfg (r_side r) (r_price r).
Proof.
  split; [reflexivity|].
  destruct (placed_orders_within_side_bound sample_settings
              (mkOracle "t1" None) sample_clock 100 sample_cfg filled_buy
              sample_bot eq_refl) as (_ & _ & H & _).
  exact H.
Defined.

(** C5, as stated, fails: in the scenario whose ladder is built at 104.5,
    the first buy rests at 103.7; when it fills, its mirror (a sell at
    104.5) is above the upper bound 104, no mirror is placed and nothing
    is written to the ledger. *)
Lemma fill_without_mirror_records_no_profit :
  exists cfg filled_order rest,
    grid_config scenario_104_5 = Some cfg
    /\ active_orders scenario_104_5 = filled_order :: rest
    /\ side filled_order = Buy /\ price filled_order == 103.7
    /\ 0 < size filled_order * spread cfg
    /\ let s' := exec (GridTradingBot.handle_filled_order sample_settings
                         (mkOracle "t1" None) filled_order) scenario_104_5 in
       ~ (total_pnl (GridTradingBot.load_pnl s')
          == total_pnl (GridTradingBot.load_pnl scenario_104_5)
             + size filled_order * spread cfg
          /\ trades (GridTradingBot.load_pnl s')
             = trades (GridTradingBot.load_pnl scenario_104_5)
               ++ [("t1"%string, size filled_order * spread cfg)]).
Proof.
  eexists _, _, _. split; [vm_compute; reflexivity|].
  split; [vm_compute; reflexivity|]. split; [reflexivity|].
  split; [vm_compute; reflexivity|]. split; [vm_compute; reflexivity|].
  cbv zeta. intros [_ H]. vm_compute in H. discriminate.
Qed.

(** C5, amended.  When the mirror of a filled order passes its bound test
    and [place_order] returns the mirror order (as it does in sandbox
    mode), the profit [filled.size * spread] is added to [total_pnl] and
    appended to the trades of the ledger; when no mirror order is
    obtained, the ledger is left as it was. *)
Theorem fill_profit_recorded_with_mirror
        (self : Settings) (orc : Oracle) (cfg : GridConfig)
        (filled_order : Order) (s : Bot) :
  grid_config s = Some cfg ->
  let s' := exec (GridTradingBot.handle_filled_order self orc filled_order) s in
  let profit := size filled_order * spread cfg in
  (GridTradingBot.mirror_in_bounds cfg
     (fst (GridTradingBot.mirror_of cfg filled_order))
     (snd (GridTradingBot.mirror_of cfg filled_order)) = true ->
   cfg_sandbox self = true ->
   total_pnl (GridTradingBot.load_pnl s')
   = total_pnl (GridTradingBot.load_pnl s) + profit
   /\ trades (GridTradingBot.load_pnl s')
      = trades (GridTradingBot.load_pnl s) ++ [(now_stamp orc, profit)]
   /\ In (NMirror filled_order
            (fst (GridTradingBot.mirror_of cfg filled_order))
            (snd (GridTradingBot.mirror_of cfg filled_order)) profit)
         (outbox s'))
  /\ (GridTradingBot.mirror_in_bounds cfg
        (fst (GridTradingBot.mirror_of cfg filled_order))
        (snd (GridTradingBot.mirror_of cfg filled_order)) = false
      \/ cfg_sandbox self = false ->
      pnl_file s' = pnl_file s).
Proof.
  intros Hcfg s' profit. subst s' profit.
  rewrite (handle_filled_order_pnl self orc cfg filled_order s Hcfg).
  unfold exec.
  rewrite (handle_filled_order_run self orc cfg filled_order s Hcfg).
  unfold Mirror.placed, Mirror.requested. split.
  - intros Hin Hsb. rewrite Hin, Hsb. simpl.
    repeat split. apply in_or_app. right. now left.
  - intros [Hout|Hlive].
    + now rewrite Hout.
    + rewrite Hlive. now rewrite andb_false_r.
Qed.

Lemma fill_profit_recorded_with_mirror_witness :
  grid_config sample_bot = Some sample_cfg
  /\ cfg_sandbox sample_settings = true
  /\ total_pnl
       (GridTradingBot.load_pnl
          (exec (GridTradingBot.handle_filled_order sample_settings
                   (mkOracle "t1" None) filled_buy) sample_bot))
     = total_pnl (GridTradingBot.load_pnl sample_bot)
       + size filled_buy * spread sample_cfg.
Proof.
  split; [reflexivity|]. split; [reflexivity|].
  destruct (fill_profit_recorded_with_mirror sample_settings
              (mkOracle "t1" None) sample_cfg filled_buy sample_bot eq_refl)
    as [H _].
  exact (proj1 (H eq_refl eq_refl)).
Defined.

(** C10.  After [handle_filled_order] on a bot whose grid is configured, no
    active order carries the identifier of the filled order, whether the
    mirror was placed, skipped for being out of bounds, or not returned by
    [place_order]; the other active orders are kept. *)
Theorem filled_order_removed
        (self : Settings) (orc : Oracle) (cfg : GridConfig)
        (filled_order : Order) (s : Bot) :
  grid_config s = Some cfg ->
  let s' := exec (GridTradingBot.handle_filled_order self orc filled_order) s in
  (forall x, In x (active_orders s') -> order_id x <> order_id filled_order)
  /\ (forall x, In x (active_orders s) ->
                order_id x <> order_id filled_order ->
                In x (active_orders s')).
Proof.
  intros Hcfg s'. subst s'.
  rewrite (handle_filled_order_active self orc cfg filled_order s Hcfg).
  split.
  - intros x Hx. now apply remove_order_spec in Hx.
  - intros x Hx Hne. apply remove_order_spec. split; [|assumption].
    apply in_or_app. now left.
Qed.

Lemma filled_order_removed_witness :
  grid_config sample_bot = Some sample_cfg
  /\ (exists x, In x (active_orders sample_bot)
                /\ order_id x = order_id filled_buy)
  /\ forall x,
       In x (active_orders
               (exec (GridTradingBot.handle_filled_order sample_settings
                        (mkOracle "t1" None) filled_buy) sample_bot)) ->
       order_id x <> order_id filled_buy.
Proof.
  split; [reflexivity|]. split.
  - eexists. split; [left; reflexivity | reflexivity].
  - exact (proj1 (filled_order_removed sample_settings (mkOracle "t1" None)
                    sample_cfg filled_buy sample_bot eq_refl)).
Defined.

(** ** check_and_adjust_grid *)

Section Adjustment.

Import GridTradingBot Bounds.

Lemma calculate_atr_bounds_run (klines : list Kline) (current_price : Q)
      (s : Bot) :
  calculate_atr_bounds klines current_price s
  = (Ret (bounds_of klines current_price),
     set_outbox (outbox s ++ bounds_notices klines current_price) s).
Proof.
  unfold calculate_atr_bounds, bounds_of, bounds_notices, atr_of.
  destruct klines as [|k ks].
  - run_bot. unfold set_outbox. rewrite app_nil_r. now destruct s.
  - run_bot.
    destruct (ATRCalculator.calculate_atr _ _ _ 14) as [atr|]; simpl.
    + reflexivity.
    + unfold set_outbox. rewrite app_nil_r. now destruct s.
Qed.

Lemma inject_Z_nonzero (z : Z) : z <> 0%Z -> ~ inject_Z z == 0.
Proof.
  intros Hz E. unfold Qeq in E. simpl in E. lia.
Qed.

Lemma calculate_grid_parameters_run (self : Settings) (lower upper : Q)
      (s : Bot) :
  cfg_grid_size self <> 0%Z -> ~ lower == 0 ->
  calculate_grid_parameters self lower upper s
  = (Ret ((upper - lower) / inject_Z (cfg_grid_size self),
          (cfg_budget self / inject_Z (cfg_grid_size self * 2)) / lower), s).
Proof.
  intros Hgs Hlo. unfold calculate_grid_parameters, position_size_of.
  rewrite (pydiv_nonzero _ _ (inject_Z_nonzero _ Hgs)).
  rewrite pydiv_nonzero by (apply inject_Z_nonzero; lia).
  run_bot. now rewrite (pydiv_nonzero _ _ Hlo).
Qed.

Lemma calculate_grid_parameters_raises (self : Settings) (lower upper : Q)
      (s : Bot) :
  cfg_grid_size self <> 0%Z -> lower == 0 ->
  calculate_grid_parameters self lower upper s = (Raise, s).
Proof.
  intros Hgs Hlo. unfold calculate_grid_parameters, position_size_of.
  rewrite (pydiv_nonzero _ _ (inject_Z_nonzero _ Hgs)).
  rewrite pydiv_nonzero by (apply inject_Z_nonzero; lia).
  run_bot. now rewrite (pydiv_zero _ _ Hlo).
Qed.

Lemma needs_adjustment_drifted (new_lower new_upper : Q) (cfg : GridConfig) :
  needs_adjustment
    (Qabs (new_lower - lower_bound cfg) / lower_bound cfg)
    (Qabs (new_upper - upper_bound cfg) / upper_bound cfg) = true
  <-> drifted new_lower new_upper cfg.
Proof.
  unfold needs_adjustment, drifted, threshold.
  rewrite orb_true_iff, !Qltb_lt. reflexivity.
Qed.

End Adjustment.

Section AdjustmentCycle.

Import GridTradingBot Bounds.

Variable self : Settings.
Variable now : Z.
Variable klines : list Kline.
Variables bounds_price ladder_price : Q.
Variable clock : Side -> nat -> Oracle.
Variable cfg : GridConfig.
Variable s : Bot.

Hypothesis Hcfg : grid_config s = Some cfg.
Hypothesis Hdue :
  (cfg_adjust_interval self * 60 <= now - last_atr_update s)%Z.
Hypothesis Hlo : ~ lower_bound cfg == 0.
Hypothesis Hup : ~ upper_bound cfg == 0.

Let new_lower : Q := fst (bounds_of klines bounds_price).
Let new_upper : Q := snd (bounds_of klines bounds_price).



(** When the new lower bound is zero the grid parameters cannot be
    computed: [calculate_grid_parameters] raises after the orders were
    cancelled and the bounds overwritten, the handler of
    [check_and_adjust_grid] logs the error, and neither the ladder nor
    [last_atr_update] is renewed. *)
Lemma check_and_adjust_grid_aborted :
  cfg_grid_size self <> 0%Z -> new_lower == 0 ->
  needs_adjustment
    (Qabs (new_lower - lower_bound cfg) / lower_bound cfg)
    (Qabs (new_upper - upper_bound cfg) / upper_bound cfg) = true ->
  check_and_adjust_grid self now klines bounds_price ladder_price clock s
  = (Ret tt,
     mkBot [] (Some (with_bounds new_lower new_upper cfg))
           (last_atr_update s) [] (pnl_file s)
           (outbox s ++ bounds_notices klines bounds_price ++ [NAdjustNeeded])
           (requests s)
           (if cfg_sandbox self then cancel_requests s
            else cancel_requests s ++ map order_id (active_orders s))).
Proof.
  subst new_lower new_upper. intros Hgs Hnl Hn.
  unfold check_and_adjust_grid.
  unfold bind at 1, try_except, get. rewrite Hcfg.
  destruct (Z.ltb_spec (now - last_atr_update s)
                       (cfg_adjust_interval self * 60)) as [Hlt|_]; [lia|].
  unfold bind at 1. rewrite calculate_atr_bounds_run.
  destruct (bounds_of klines bounds_price) as [nl nu] eqn:Eb.
  unfold bind at 1. unfold bind at 1. unfold lift_option at 1.
  unfold set_outbox at 1 2. cbn [grid_config]. rewrite Hcfg. unfold ret at 1.
  rewrite (pydiv_nonzero _ _ Hlo), (pydiv_nonzero _ _ Hup).
  cbn [fst snd] in Hn, Hnl.
  unfold bind at 1. unfold lift_option at 1. unfold ret at 1.
  unfold bind at 1. unfold lift_option at 1. unfold ret at 1.
  unfold bind at 1. rewrite Hn.
  unfold bind at 1. unfold send_telegram_message at 1, modify at 1.
  unfold bind at 1. unfold cancel_all_orders, try_except, save_orders.
  run_bot.
  destruct (cfg_sandbox self); unfold_setters;
    rewrite (calculate_grid_parameters_raises self nl nu _ Hgs Hnl);
    unfold_setters; rewrite <- !app_assoc; reflexivity.
Qed.

End AdjustmentCycle.


Lemma sample_bot_configured : grid_config sample_bot = Some sample_cfg.
Proof. reflexivity. Qed.

Lemma sample_adjustment_due :
  (cfg_adjust_interval sample_settings * 60
   <= 900 - last_atr_update sample_bot)%Z.
Proof. intro H. vm_compute in H. discriminate. Qed.




(** ** The end-to-end scenario *)

(** C1, as stated, fails: in the scenario the fifth buy rung is
    [100 - 5 * 0.8 = 96] and the fifth sell rung [100 + 5 * 0.8 = 104];
    both lie on their bound, pass the tests [price >= lower_bound] and
    [price <= upper_bound], and are placed, so that the ladder does not
    have four buys and four sells. *)
Lemma scenario_ladder_not_four_and_four :
  ~ (count_side Buy (active_orders scenario) = 4%nat
     /\ count_side Sell (active_orders scenario) = 4%nat).
Proof.
  intros [H _]. vm_compute in H. discriminate.
Qed.

(** C1, amended.  For current price 100, ATR 2, multiplier 2, grid size 10
    and budget 1000 (sandbox mode): the bounds are (96, 104), the spread is
    0.8, the position size 50, the increment 50/96, and the ladder built by
    [create_initial_orders] holds exactly 5 buy orders, at 99.2, 98.4,
    97.6, 96.8 and 96, and exactly 5 sell orders, at 100.8, 101.6, 102.4,
    103.2 and 104. *)
Theorem scenario_ladder :
  (exists atr,
      Bounds.atr_of candles_atr_2 = Some atr /\ atr == 2
      /\ fst (GridTradingBot.atr_band 100 atr) == 96
      /\ snd (GridTradingBot.atr_band 100 atr) == 104)
  /\ (exists position_size,
         GridTradingBot.position_size_of sample_settings = Some position_size
         /\ position_size == 50)
  /\ (exists cfg,
         grid_config scenario = Some cfg
         /\ lower_bound cfg == 96 /\ upper_bound cfg == 104
         /\ spread cfg == 0.8 /\ increment cfg == 50 / 96
         /\ Forall (fun o => size o = increment cfg) (active_orders scenario))
  /\ count_side Buy (active_orders scenario) = 5%nat
  /\ count_side Sell (active_orders scenario) = 5%nat
  /\ Forall2 Qeq (prices_of Buy (active_orders scenario))
             [99.2; 98.4; 97.6; 96.8; 96]
  /\ Forall2 Qeq (prices_of Sell (active_orders scenario))
             [100.8; 101.6; 102.4; 103.2; 104].
Proof.
  split; [|split; [|split; [|split; [|split; [|split]]]]].
  - eexists. split; [vm_compute; reflexivity|].
    repeat split; vm_compute; reflexivity.
  - eexists. split; [vm_compute; reflexivity|]. vm_compute. reflexivity.
  - eexists. split; [vm_compute; reflexivity|].
    repeat (split; [vm_compute; reflexivity|]).
    vm_compute. repeat constructor.
  - vm_compute. reflexivity.
  - vm_compute. reflexivity.
  - vm_compute. repeat constructor.
  - vm_compute. repeat constructor.
Qed.

(** * Further properties of the engine *)

(** ** Volatility and bounds *)

Lemma pymax3_ge_second (a b c : Q) : b <= pymax3 a b c.
Proof.
  unfold pymax3.
  destruct (Qltb a b) eqn:E1.
  - destruct (Qltb b c) eqn:E2; [apply Qltb_lt in E2; lra | lra].
  - apply Qltb_ge in E1.
    destruct (Qltb a c) eqn:E2; [apply Qltb_lt in E2; lra | lra].
Qed.

Lemma true_range_at_nonneg (highs lows closes : list Q) (i : nat) (tr : Q) :
  ATRCalculator.true_range_at highs lows closes i = Some tr -> 0 <= tr.
Proof.
  unfold ATRCalculator.true_range_at.
  destruct (nth_error highs i) as [h|]; [|discriminate].
  destruct (nth_error lows i) as [l|]; [|discriminate].
  destruct (nth_error closes (i - 1)) as [c|]; [|discriminate].
  intro H. inversion H; subst.
  apply Qle_trans with (Qabs (h - c)); [apply Qabs_nonneg|].
  apply pymax3_ge_second.
Qed.

Lemma collect_true_ranges_nonneg (highs lows closes : list Q) (idx : list nat) :
  forall trs,
    ATRCalculator.collect_true_ranges highs lows closes idx = Some trs ->
    Forall (fun tr => 0 <= tr) trs.
Proof.
  induction idx as [|i idx IH]; intros trs H; simpl in H.
  - inversion H. constructor.
  - destruct (ATRCalculator.true_range_at highs lows closes i) as [tr|] eqn:Et;
      [|discriminate].
    destruct (ATRCalculator.collect_true_ranges highs lows closes idx)
      as [rest|]; [|discriminate].
    inversion H; subst. constructor.
    + now apply true_range_at_nonneg in Et.
    + now apply IH.
Qed.

Lemma pysum_nonneg (xs : list Q) : Forall (fun x => 0 <= x) xs -> 0 <= pysum xs.
Proof.
  intro H. rewrite pysum_fold_right.
  induction H as [|x xs Hx _ IH]; simpl; [apply Qle_refl | lra].
Qed.

Lemma last_slice_Forall (P : Q -> Prop) (n : nat) (xs : list Q) :
  Forall P xs -> Forall P (ATRCalculator.last_slice n xs).
Proof.
  intro H. unfold ATRCalculator.last_slice. destruct n; [assumption|].
  rewrite <- (firstn_skipn (length xs - S n) xs) in H.
  apply Forall_app in H. tauto.
Qed.

Lemma pydiv_nonneg (x : Q) (n : nat) (r : Q) :
  0 <= x -> pydiv x (Qnat n) = Some r -> 0 <= r.
Proof.
  intros Hx H. unfold pydiv in H.
  destruct (Qeq_bool (Qnat n) 0); [discriminate|]. inversion H; subst.
  unfold Qdiv. apply Qmult_le_0_compat; [assumption|].
  apply Qinv_le_0_compat. unfold Qnat, Qle. simpl. lia.
Qed.

Lemma calculate_atr_result_nonneg (highs lows closes : list Q) (period : nat)
      (atr : Q) :
  ATRCalculator.calculate_atr highs lows closes period = Some atr -> 0 <= atr.
Proof.
  unfold ATRCalculator.calculate_atr.
  destruct (length highs <? period + 1)%nat.
  - intro H. inversion H. apply Qle_refl.
  - destruct (ATRCalculator.collect_true_ranges highs lows closes _)
      as [trs|] eqn:Ec; [|discriminate].
    apply collect_true_ranges_nonneg in Ec.
    destruct (length trs <? period)%nat; intro H;
      eapply pydiv_nonneg; try exact H; apply pysum_nonneg;
      [assumption | now apply last_slice_Forall].
Qed.



Lemma bounds_of_around_price (klines : list Kline) (current_price : Q) :
  0 <= current_price ->
  fst (Bounds.bounds_of klines current_price) <= current_price
  /\ current_price <= snd (Bounds.bounds_of klines current_price)
  /\ fst (Bounds.bounds_of klines current_price)
     + snd (Bounds.bounds_of klines current_price) == 2 * current_price.
Proof.
  intro Hp. unfold Bounds.bounds_of.
  destruct (Bounds.atr_of klines) as [atr|] eqn:Ea.
  - assert (Hatr : 0 <= atr).
    { unfold Bounds.atr_of in Ea. destruct klines; [discriminate|].
      now apply calculate_atr_result_nonneg in Ea. }
    unfold GridTradingBot.atr_band. simpl. repeat split; lra || ring.
  - unfold GridTradingBot.fallback_band. simpl.
    repeat split; lra || ring.
Qed.

(** X2.  For a non-negative ticker price, [calculate_atr_bounds] never
    raises, changes nothing of the bot but the outbox, and returns a band
    [lower <= price <= upper] centred on the price, on its volatility path
    and on its fallback paths alike. *)
Theorem calculate_atr_bounds_around_price
        (klines : list Kline) (current_price : Q) (s : Bot) :
  0 <= current_price ->
  exists lower upper s',
    GridTradingBot.calculate_atr_bounds klines current_price s
    = (Ret (lower, upper), s')
    /\ lower <= current_price /\ current_price <= upper
    /\ lower + upper == 2 * current_price
    /\ s' = set_outbox (outbox s') s.
Proof.
  intro Hp. rewrite calculate_atr_bounds_run.
  destruct (bounds_of_around_price klines current_price Hp) as (H1 & H2 & H3).
  destruct (Bounds.bounds_of klines current_price) as [lo up].
  exists lo, up. eexists. split; [reflexivity|].
  repeat (split; [assumption|]). now destruct s.
Qed.

Lemma calculate_atr_bounds_around_price_witness :
  exists lower upper s',
    GridTradingBot.calculate_atr_bounds candles_atr_2 100
      (GridTradingBot.init 0) = (Ret (lower, upper), s')
    /\ lower <= 100 /\ 100 <= upper
    /\ lower + upper == 2 * 100
    /\ s' = set_outbox (outbox s') (GridTradingBot.init 0).
Proof.
  apply (calculate_atr_bounds_around_price candles_atr_2 100
           (GridTradingBot.init 0)).
  discriminate.
Defined.

(** ** setup_grid *)

Section SetupGrid.

Import GridTradingBot Bounds.

Variable self : Settings.
Variable klines : list Kline.
Variables bounds_price ladder_price : Q.
Variable clock : Side -> nat -> Oracle.

Let lower : Q := fst (bounds_of klines bounds_price).
Let upper : Q := snd (bounds_of klines bounds_price).

(** The configuration [setup_grid] builds. *)
Let built : GridConfig :=
  mkGridConfig (cfg_symbol self) (cfg_leverage self) (cfg_grid_size self)
               (cfg_budget self) upper lower
               ((upper - lower) / inject_Z (cfg_grid_size self))
               ((cfg_budget self / inject_Z (cfg_grid_size self * 2)) / lower)
               (cfg_stop_loss self) (cfg_take_profit self) 14.

Lemma setup_grid_run (s : Bot) :
  cfg_grid_size self <> 0%Z -> ~ lower == 0 ->
  setup_grid self klines bounds_price ladder_price clock s
  = (Ret tt,
     mkBot (active_orders s ++ Ladder.ladder_orders self built ladder_price clock)
           (Some built) (last_atr_update s)
           (active_orders s ++ Ladder.ladder_orders self built ladder_price clock)
           (pnl_file s)
           (outbox s ++ [NStart] ++ bounds_notices klines bounds_price
            ++ [NGridConfigured lower upper (spread built) (increment built);
                NInitialOrders
                  (length (Ladder.ladder_orders self built ladder_price clock))
                  ladder_price])
           (requests s ++ Ladder.ladder_requests self built ladder_price)
           (cancel_requests s)).
Proof.
  subst built lower upper. intros Hgs Hlo. unfold setup_grid.
  unfold try_except, bind at 1, send_telegram_message at 1, modify at 1.
  unfold bind at 1. rewrite calculate_atr_bounds_run.
  destruct (bounds_of klines bounds_price) as [lo up] eqn:Eb.
  cbn [fst snd] in *. unfold bind at 1.
  rewrite (calculate_grid_parameters_run self lo up _ Hgs Hlo).
  unfold bind at 1, modify at 1. unfold bind at 1.
  unfold send_telegram_message at 1, modify at 1.
  erewrite create_initial_orders_run by reflexivity.
  unfold_setters. rewrite <- !app_assoc. reflexivity.
Qed.

Lemma setup_grid_fails (s : Bot) :
  cfg_grid_size self <> 0%Z -> lower == 0 ->
  setup_grid self klines bounds_price ladder_price clock s
  = (Ret tt,
     set_outbox (outbox s ++ [NStart] ++ bounds_notices klines bounds_price
                 ++ [NError]) s).
Proof.
  subst lower. intros Hgs Hlo. unfold setup_grid.
  unfold try_except, bind at 1, send_telegram_message at 1, modify at 1.
  unfold bind at 1. rewrite calculate_atr_bounds_run.
  destruct (bounds_of klines bounds_price) as [lo up] eqn:Eb.
  cbn [fst snd] in *. unfold bind at 1.
  rewrite (calculate_grid_parameters_raises self lo up _ Hgs Hlo).
  unfold send_telegram_message, modify. unfold_setters.
  rewrite <- !app_assoc. reflexivity.
Qed.

End SetupGrid.

(** X3.  When the grid parameters can be computed (grid size and lower
    bound non-zero), [setup_grid] installs a configuration whose bounds are
    the computed ones and whose spread and increment satisfy
    [spread * grid_size == upper - lower] and
    [increment * lower * (grid_size * 2) == budget]; the active orders are
    the former ones followed by the ladder built against that
    configuration, and the persisted snapshot equals the active orders. *)
Theorem setup_grid_installs_grid
        (self : Settings) (klines : list Kline) (bounds_price ladder_price : Q)
        (clock : Side -> nat -> Oracle) (s : Bot) :
  cfg_grid_size self <> 0%Z ->
  ~ fst (Bounds.bounds_of klines bounds_price) == 0 ->
  let s' :=
    exec (GridTradingBot.setup_grid self klines bounds_price ladder_price
            clock) s in
  exists cfg,
    grid_config s' = Some cfg
    /\ lower_bound cfg = fst (Bounds.bounds_of klines bounds_price)
    /\ upper_bound cfg = snd (Bounds.bounds_of klines bounds_price)
    /\ spread cfg * inject_Z (cfg_grid_size self)
       == upper_bound cfg - lower_bound cfg
    /\ increment cfg * lower_bound cfg * inject_Z (cfg_grid_size self * 2)
       == cfg_budget self
    /\ active_orders s'
       = active_orders s ++ Ladder.ladder_orders self cfg ladder_price clock
    /\ orders_file s' = active_orders s'.
Proof.
  intros Hgs Hlo s'. subst s'. unfold exec.
  rewrite (setup_grid_run self klines bounds_price ladder_price clock s Hgs Hlo).
  eexists. split; [reflexivity|].
  cbn [snd grid_config active_orders orders_file lower_bound upper_bound
           spread increment].
  assert (G : ~ inject_Z (cfg_grid_size self) == 0)
    by now apply inject_Z_nonzero.
  assert (G2 : ~ inject_Z (cfg_grid_size self * 2) == 0)
    by (apply inject_Z_nonzero; lia).
  repeat (split; [reflexivity|]). split; [|split; [|split; reflexivity]].
  - field. exact G.
  - field. split; assumption.
Qed.

Lemma setup_grid_installs_grid_witness :
  exists cfg,
    grid_config scenario = Some cfg
    /\ spread cfg * inject_Z (cfg_grid_size sample_settings)
       == upper_bound cfg - lower_bound cfg.
Proof.
  assert (Hgs : cfg_grid_size sample_settings <> 0%Z) by discriminate.
  assert (Hlo : ~ fst (Bounds.bounds_of candles_atr_2 100) == 0)
    by (intro H; vm_compute in H; discriminate).
  destruct (setup_grid_installs_grid sample_settings candles_atr_2 100 100
              sample_clock (GridTradingBot.init 0) Hgs Hlo)
    as (cfg & Hc & _ & _ & Hs & _).
  exists cfg. split; assumption.
Defined.

(** X4.  When the lower bound comes out as zero (as it does when neither
    candles nor ticker are available: price 0.0, fallback band (0, 0)),
    [setup_grid] catches the division by zero of
    [calculate_grid_parameters]: it sends an error notice, installs no
    configuration, requests no order and leaves the active orders and both
    stores untouched. *)
Theorem setup_grid_zero_lower_bound
        (self : Settings) (klines : list Kline) (bounds_price ladder_price : Q)
        (clock : Side -> nat -> Oracle) (s : Bot) :
  cfg_grid_size self <> 0%Z ->
  fst (Bounds.bounds_of klines bounds_price) == 0 ->
  let s' :=
    exec (GridTradingBot.setup_grid self klines bounds_price ladder_price
            clock) s in
  grid_config s' = grid_config s
  /\ active_orders s' = active_orders s
  /\ requests s' = requests s
  /\ orders_file s' = orders_file s /\ pnl_file s' = pnl_file s
  /\ last (outbox s') NStart = NError.
Proof.
  intros Hgs Hlo s'. subst s'. unfold exec.
  rewrite (setup_grid_fails self klines bounds_price ladder_price clock s
             Hgs Hlo).
  unfold set_outbox.
  cbn [snd grid_config active_orders requests orders_file pnl_file outbox].
  repeat (split; [reflexivity|]).
  rewrite !app_assoc. apply last_last.
Qed.

Lemma setup_grid_zero_lower_bound_witness :
  fst (Bounds.bounds_of [] 0) == 0
  /\ grid_config
       (exec (GridTradingBot.setup_grid sample_settings [] 0 0 sample_clock)
             (GridTradingBot.init 0)) = None.
Proof.
  assert (Hgs : cfg_grid_size sample_settings <> 0%Z) by discriminate.
  assert (Hlo : fst (Bounds.bounds_of [] 0) == 0) by reflexivity.
  split; [exact Hlo|].
  exact (proj1 (setup_grid_zero_lower_bound sample_settings [] 0 0
                  sample_clock (GridTradingBot.init 0) Hgs Hlo)).
Defined.

(** ** The shape of the ladder *)

Section LadderShape.

Import GridTradingBot Ladder.

Variable self : Settings.
Variable cfg : GridConfig.
Variable current_price : Q.
Variable clock : Side -> nat -> Oracle.

Lemma side_orders_shape (sd : Side) (idx : list nat) (o : Order) :
  In o (side_orders self cfg sd current_price clock idx) ->
  side o = sd /\ size o = increment cfg /\ status o = Active
  /\ exists i, price o = rung_price cfg sd current_price i
               /\ rung_inside cfg sd (rung_price cfg sd current_price i) = true.
Proof.
  unfold side_orders, rungs. destruct (cfg_sandbox self); [|contradiction].
  intro H. apply in_map_iff in H. destruct H as [i [<- Hi]].
  apply filter_In in Hi. destruct Hi as [_ Hb].
  repeat split. now exists i.
Qed.

Lemma side_orders_length (sd : Side) (idx : list nat) :
  (length (side_orders self cfg sd current_price clock idx) <= length idx)%nat.
Proof.
  unfold side_orders, rungs. destruct (cfg_sandbox self); simpl; [|lia].
  rewrite length_map. apply filter_length_le.
Qed.

Lemma rung_price_side (sd : Side) (i : nat) :
  0 < spread cfg ->
  match sd with
  | Buy => rung_price cfg sd current_price i < current_price
  | Sell => current_price < rung_price cfg sd current_price i
  end.
Proof.
  intro Hs.
  assert (Hn : 0 < Qnat (i + 1) * spread cfg).
  { apply Qmult_lt_0_compat; [|assumption]. apply Qnat_pos. lia. }
  destruct sd; simpl; lra.
Qed.

Lemma rung_price_on_lattice (sd : Side) (i : nat) :
  on_lattice cfg current_price (rung_price cfg sd current_price i).
Proof.
  destruct sd; simpl.
  - exists (- Z.of_nat (i + 1))%Z. unfold Qnat. rewrite inject_Z_opp. ring.
  - exists (Z.of_nat (i + 1)). unfold Qnat. ring.
Qed.

Lemma ladder_orders_grid (o : Order) :
  In o (ladder_orders self cfg current_price clock) ->
  grid_order cfg current_price o.
Proof.
  unfold ladder_orders. intro H. apply in_app_or in H.
  destruct H as [H|H]; apply side_orders_shape in H;
    destruct H as (_ & Hsz & _ & i & Hp & _); split; try assumption;
    rewrite Hp; apply rung_price_on_lattice.
Qed.

End LadderShape.

(** X5.  With a positive spread, [create_initial_orders] appends to the
    active orders at most [2 * (grid_size // 2)] orders; each has the
    configured increment as size and status active; every buy lies below
    the ticker price and at or above the lower bound, every sell above the
    ticker price and at or below the upper bound; the notice carries the
    number of orders created, and the persisted snapshot equals the active
    orders. *)
Theorem create_initial_orders_shape
        (self : Settings) (current_price : Q) (clock : Side -> nat -> Oracle)
        (cfg : GridConfig) (s : Bot) :
  grid_config s = Some cfg -> 0 < spread cfg ->
  let s' :=
    exec (GridTradingBot.create_initial_orders self current_price clock) s in
  exists created,
    active_orders s' = active_orders s ++ created
    /\ (length created <= 2 * Z.to_nat (cfg_grid_size self / 2))%nat
    /\ Forall (fun o =>
                 size o = increment cfg /\ status o = Active
                 /\ match side o with
                    | Buy => lower_bound cfg <= price o
                             /\ price o < current_price
                    | Sell => current_price < price o
                              /\ price o <= upper_bound cfg
                    end) created
    /\ last (outbox s') NStart = NInitialOrders (length created) current_price
    /\ orders_file s' = active_orders s'.
Proof.
  intros Hcfg Hsp s'. subst s'. unfold exec.
  rewrite (create_initial_orders_run self cfg current_price clock s Hcfg).
  exists (Ladder.ladder_orders self cfg current_price clock).
  cbn [snd active_orders orders_file outbox].
  split; [reflexivity|]. split; [|split; [|split; [apply last_last|reflexivity]]].
  - unfold Ladder.ladder_orders. rewrite length_app.
    pose proof (side_orders_length self cfg current_price clock Buy
                  (GridTradingBot.half_range self)) as Hb.
    pose proof (side_orders_length self cfg current_price clock Sell
                  (GridTradingBot.half_range self)) as Hs.
    unfold GridTradingBot.half_range in *. rewrite length_seq in *. lia.
  - apply Forall_forall. intros o Ho. unfold Ladder.ladder_orders in Ho.
    apply in_app_or in Ho.
    destruct Ho as [Ho|Ho]; apply side_orders_shape in Ho;
      destruct Ho as (Hsd & Hsz & Hst & i & Hp & Hin);
      rewrite Hsd, Hp; (split; [assumption|]); (split; [assumption|]).
    + split; [now apply Qle_bool_iff in Hin|].
      exact (rung_price_side cfg current_price Buy i Hsp).
    + split; [|now apply Qle_bool_iff in Hin].
      exact (rung_price_side cfg current_price Sell i Hsp).
Qed.

Lemma create_initial_orders_shape_witness :
  grid_config (set_grid_config (Some sample_cfg) (GridTradingBot.init 0))
  = Some sample_cfg
  /\ 0 < spread sample_cfg
  /\ exists created,
       active_orders sample_bot = [] ++ created
       /\ (length created <= 2 * Z.to_nat (cfg_grid_size sample_settings / 2))%nat.
Proof.
  split; [reflexivity|]. split; [reflexivity|].
  destruct (create_initial_orders_shape sample_settings 100 sample_clock
              sample_cfg
              (set_grid_config (Some sample_cfg) (GridTradingBot.init 0))
              eq_refl eq_refl) as (created & H1 & H2 & _).
  exists created. split; assumption.
Defined.

(** X6.  Outside sandbox mode [place_order] never returns an order (after
    the exchange call its log line reads a local that was never assigned,
    and the handler returns [None]).  Hence [create_initial_orders] still
    requests every rung that passes its bound test but tracks none of them
    and reports 0 orders created, and [handle_filled_order] still requests
    the mirror but only removes the filled order and records no profit. *)
Theorem live_mode_tracks_no_order
        (self : Settings) (orc : Oracle) (clock : Side -> nat -> Oracle)
        (current_price : Q) (cfg : GridConfig) (filled_order : Order)
        (s : Bot) :
  grid_config s = Some cfg -> cfg_sandbox self = false ->
  let ladder :=
    exec (GridTradingBot.create_initial_orders self current_price clock) s in
  let mirrored :=
    exec (GridTradingBot.handle_filled_order self orc filled_order) s in
  active_orders ladder = active_orders s
  /\ requests ladder
     = requests s ++ Ladder.ladder_requests self cfg current_price
  /\ last (outbox ladder) NStart = NInitialOrders 0 current_price
  /\ active_orders mirrored
     = GridTradingBot.remove_order (order_id filled_order) (active_orders s)
  /\ requests mirrored
     = requests s ++ (if Mirror.requested cfg filled_order
                      then [Mirror.mirror_request cfg filled_order] else [])
  /\ pnl_file mirrored = pnl_file s
  /\ outbox mirrored = outbox s.
Proof.
  intros Hcfg Hlive ladder mirrored. subst ladder mirrored.
  rewrite (handle_filled_order_requests self orc cfg filled_order s Hcfg).
  rewrite (handle_filled_order_active self orc cfg filled_order s Hcfg).
  rewrite (handle_filled_order_pnl self orc cfg filled_order s Hcfg).
  unfold exec.
  rewrite (create_initial_orders_run self cfg current_price clock s Hcfg).
  rewrite (handle_filled_order_run self orc cfg filled_order s Hcfg).
  assert (Hnone : Ladder.ladder_orders self cfg current_price clock = []).
  { unfold Ladder.ladder_orders, Ladder.side_orders. now rewrite Hlive. }
  assert (Hpl : Mirror.placed self cfg filled_order = false).
  { unfold Mirror.placed. rewrite Hlive. apply andb_false_r. }
  rewrite Hnone, Hpl. cbn [snd active_orders requests outbox length].
  rewrite !app_nil_r. repeat (split; [reflexivity|]).
  split; [apply last_last|]. repeat split; reflexivity.
Qed.

Lemma live_mode_tracks_no_order_witness :
  let live :=
    mkSettings "BTC-USDT" 10 10 15 0.01 0.02 1000 false in
  cfg_sandbox live = false
  /\ active_orders
       (exec (GridTradingBot.create_initial_orders live 100 sample_clock)
             (set_grid_config (Some sample_cfg) (GridTradingBot.init 0)))
     = [].
Proof.
  cbv zeta. split; [reflexivity|].
  exact (proj1 (live_mode_tracks_no_order
                  (mkSettings "BTC-USDT" 10 10 15 0.01 0.02 1000 false)
                  (mkOracle "t1" (Some "id1"%string)) sample_clock 100
                  sample_cfg filled_buy
                  (set_grid_config (Some sample_cfg) (GridTradingBot.init 0))
                  eq_refl eq_refl)).
Defined.

(** X7.  [cancel_all_orders] empties the active orders and the persisted
    snapshot and touches neither the configuration, the ledger nor the
    order requests.  In sandbox mode it sends no cancel request; otherwise
    it sends one per active order, in order.  A second call changes
    nothing. *)
Theorem cancel_all_orders_clears (self : Settings) (s : Bot) :
  let s' := exec (GridTradingBot.cancel_all_orders self) s in
  active_orders s' = [] /\ orders_file s' = []
  /\ cancel_requests s'
     = cancel_requests s
       ++ (if cfg_sandbox self then [] else map order_id (active_orders s))
  /\ grid_config s' = grid_config s /\ pnl_file s' = pnl_file s
  /\ requests s' = requests s /\ outbox s' = outbox s
  /\ exec (GridTradingBot.cancel_all_orders self) s' = s'.
Proof.
  unfold GridTradingBot.cancel_all_orders, GridTradingBot.save_orders.
  run_bot. destruct (cfg_sandbox self); unfold_setters;
    rewrite ?app_nil_r; repeat split; reflexivity.
Qed.

(** ** The ledger *)

Lemma pysum_snoc (xs : list Q) (x : Q) : pysum (xs ++ [x]) == pysum xs + x.
Proof.
  unfold pysum. rewrite fold_left_app. simpl. reflexivity.
Qed.

Lemma load_pnl_after_update (profit : Q) (stamp : string) (s : Bot) :
  GridTradingBot.load_pnl (exec (GridTradingBot.update_pnl profit stamp) s)
  = Mirror.ledger_with stamp profit (GridTradingBot.load_pnl s).
Proof. reflexivity. Qed.

Lemma record_all_ledger (calls : list (string * Q)) :
  forall s,
    trades (GridTradingBot.load_pnl (record_all calls s))
    = trades (GridTradingBot.load_pnl s) ++ calls
    /\ total_pnl (GridTradingBot.load_pnl (record_all calls s))
       == total_pnl (GridTradingBot.load_pnl s) + pysum (map snd calls).
Proof.
  induction calls as [|[stamp profit] calls IH] using rev_ind; intro s.
  - unfold record_all. simpl. rewrite app_nil_r. split; [reflexivity|].
    unfold pysum. simpl. ring.
  - unfold record_all in *. rewrite fold_left_app. cbn [fold_left fst snd].
    destruct (IH s) as [Ht Hs]. rewrite load_pnl_after_update.
    unfold Mirror.ledger_with. cbn [trades total_pnl].
    rewrite Ht, Hs, map_app. cbn [map snd]. rewrite pysum_snoc, app_assoc.
    split; [reflexivity | ring].
Qed.

(** X8.  Starting without a ledger file, after any sequence of
    [update_pnl] calls the ledger lists exactly the recorded trades, in
    call order, and its total is the sum of their profits. *)
Theorem update_pnl_accumulates (calls : list (string * Q)) (s : Bot) :
  pnl_file s = None ->
  let d := GridTradingBot.load_pnl (record_all calls s) in
  trades d = calls /\ total_pnl d == pysum (map snd calls)
  /\ ledger_consistent d.
Proof.
  intros Hnone d. subst d.
  destruct (record_all_ledger calls s) as [Ht Hs].
  unfold GridTradingBot.load_pnl at 2 in Ht.
  unfold GridTradingBot.load_pnl at 2 in Hs.
  rewrite Hnone in Ht, Hs. simpl in Ht, Hs.
  split; [exact Ht|]. split.
  - rewrite Hs. ring.
  - unfold ledger_consistent. rewrite Ht, Hs. ring.
Qed.

Lemma update_pnl_accumulates_witness :
  pnl_file sample_bot = None
  /\ total_pnl
       (GridTradingBot.load_pnl
          (record_all [("t1"%string, 0.4); ("t2"%string, 0.4)] sample_bot))
     == pysum [0.4; 0.4].
Proof.
  split; [reflexivity|].
  exact (proj1 (proj2 (update_pnl_accumulates
                         [("t1"%string, 0.4); ("t2"%string, 0.4)] sample_bot
                         eq_refl))).
Defined.




(** ** The grid lattice *)

Lemma on_lattice_shift (cfg : GridConfig) (origin p : Q) (d : Z) :
  on_lattice cfg origin p ->
  on_lattice cfg origin (p + inject_Z d * spread cfg).
Proof.
  intros [k Hk]. exists (k + d)%Z. rewrite Hk, inject_Z_plus. ring.
Qed.

Lemma mirror_on_lattice (cfg : GridConfig) (origin : Q) (o : Order) :
  on_lattice cfg origin (price o) ->
  on_lattice cfg origin (snd (GridTradingBot.mirror_of cfg o)).
Proof.
  intro H. unfold GridTradingBot.mirror_of.
  destruct (side o); cbn [snd].
  - destruct (on_lattice_shift cfg origin (price o) 1 H) as [k Hk].
    exists k. rewrite <- Hk. simpl. ring.
  - destruct (on_lattice_shift cfg origin (price o) (-1) H) as [k Hk].
    exists k. rewrite <- Hk. simpl. ring.
Qed.

(** X10.  The grid is an invariant of the engine: every order
    [create_initial_orders] adds sits a whole number of spreads away from
    the ticker price and has the configured increment as size; and if all
    active orders and the filled order are such grid orders (for one
    anchor price), so are all active orders after
    [handle_filled_order]. *)
Theorem grid_orders_invariant
        (self : Settings) (orc : Oracle) (clock : Side -> nat -> Oracle)
        (current_price origin : Q) (cfg : GridConfig) (filled_order : Order)
        (s : Bot) :
  grid_config s = Some cfg ->
  (Forall (grid_order cfg current_price) (active_orders s) ->
   Forall (grid_order cfg current_price)
          (active_orders
             (exec (GridTradingBot.create_initial_orders self current_price
                      clock) s)))
  /\ (Forall (grid_order cfg origin) (active_orders s) ->
      grid_order cfg origin filled_order ->
      Forall (grid_order cfg origin)
             (active_orders
                (exec (GridTradingBot.handle_filled_order self orc
                         filled_order) s))).
Proof.
  intro Hcfg. split.
  - intro Hall. unfold exec.
    rewrite (create_initial_orders_run self cfg current_price clock s Hcfg).
    cbn [snd active_orders]. apply Forall_app. split; [assumption|].
    apply Forall_forall. intros o Ho.
    now apply (ladder_orders_grid self cfg current_price clock).
  - intros Hall [Hlat Hsz].
    rewrite (handle_filled_order_active self orc cfg filled_order s Hcfg).
    apply Forall_forall. intros x Hx. apply remove_order_spec in Hx.
    destruct Hx as [Hx _]. apply in_app_or in Hx.
    destruct Hx as [Hx|Hx].
    + rewrite Forall_forall in Hall. now apply Hall.
    + destruct (Mirror.placed self cfg filled_order); [|contradiction].
      destruct Hx as [<-|[]]. split.
      * now apply mirror_on_lattice.
      * exact Hsz.
Qed.

Lemma grid_orders_invariant_witness :
  grid_config (set_grid_config (Some sample_cfg) (GridTradingBot.init 0))
  = Some sample_cfg
  /\ Forall (grid_order sample_cfg 100) (active_orders sample_bot).
Proof.
  split; [reflexivity|].
  apply (proj1 (grid_orders_invariant sample_settings (mkOracle "t1" None)
                  sample_clock 100 100 sample_cfg filled_buy
                  (set_grid_config (Some sample_cfg) (GridTradingBot.init 0))
                  eq_refl)).
  constructor.
Defined.

(** ** Adjustment cycles that cannot compute the grid *)

Lemma zero_lower_bound_drifts (new_lower new_upper : Q) (cfg : GridConfig) :
  0 < lower_bound cfg -> new_lower == 0 ->
  Bounds.drifted new_lower new_upper cfg.
Proof.
  intros Hpos Hz. left.
  assert (E : Qabs (new_lower - lower_bound cfg) / lower_bound cfg == 1).
  { assert (E1 : new_lower - lower_bound cfg == - lower_bound cfg)
      by (rewrite Hz; ring).
    rewrite E1, Qabs_opp, Qabs_pos by lra. field. lra. }
  rewrite E. reflexivity.
Qed.

Lemma check_and_adjust_grid_stuck
      (self : Settings) (now : Z) (klines : list Kline)
      (bounds_price ladder_price : Q) (clock : Side -> nat -> Oracle)
      (cfg : GridConfig) (s : Bot) :
  grid_config s = Some cfg ->
  (cfg_adjust_interval self * 60 <= now - last_atr_update s)%Z ->
  lower_bound cfg == 0 ->
  GridTradingBot.check_and_adjust_grid self now klines bounds_price
    ladder_price clock s
  = (Ret tt,
     set_outbox (outbox s ++ Bounds.bounds_notices klines bounds_price) s).
Proof.
  intros Hcfg Hdue Hz. unfold GridTradingBot.check_and_adjust_grid.
  unfold bind at 1, try_except, get. rewrite Hcfg.
  destruct (Z.ltb_spec (now - last_atr_update s)
                       (cfg_adjust_interval self * 60)) as [Hlt|_]; [lia|].
  unfold bind at 1. rewrite calculate_atr_bounds_run.
  destruct (Bounds.bounds_of klines bounds_price) as [nl nu] eqn:Eb.
  unfold bind at 1. unfold bind at 1. unfold lift_option at 1.
  unfold set_outbox at 1 2. cbn [grid_config]. rewrite Hcfg. unfold ret at 1.
  rewrite (pydiv_zero _ _ Hz).
  unfold bind at 1, lift_option at 1, raise, ret. unfold set_outbox.
  rewrite ?Hcfg. reflexivity.
Qed.

(** X11.  If a due adjustment cycle computes a new lower bound of zero
    while the configured lower bound is positive (as when neither candles
    nor ticker are available), the drift test passes and the orders are
    cancelled, but [calculate_grid_parameters] then divides by zero: the
    cycle ends with no active order, an empty snapshot, the new bounds
    written over the old ones beside the old spread and increment, no
    order requested, and [last_atr_update] not renewed. *)
Theorem adjustment_to_zero_lower_bound
        (self : Settings) (now : Z) (klines : list Kline)
        (bounds_price ladder_price : Q) (clock : Side -> nat -> Oracle)
        (cfg : GridConfig) (s : Bot) :
  grid_config s = Some cfg ->
  (cfg_adjust_interval self * 60 <= now - last_atr_update s)%Z ->
  0 < lower_bound cfg -> ~ upper_bound cfg == 0 ->
  cfg_grid_size self <> 0%Z ->
  fst (Bounds.bounds_of klines bounds_price) == 0 ->
  let s' :=
    exec (GridTradingBot.check_and_adjust_grid self now klines bounds_price
            ladder_price clock) s in
  active_orders s' = [] /\ orders_file s' = []
  /\ grid_config s'
     = Some (with_bounds (fst (Bounds.bounds_of klines bounds_price))
                         (snd (Bounds.bounds_of klines bounds_price)) cfg)
  /\ requests s' = requests s
  /\ last_atr_update s' = last_atr_update s
  /\ last (outbox s') NStart = NAdjustNeeded.
Proof.
  intros Hcfg Hdue Hpos Hup Hgs Hz s'. subst s'. unfold exec.
  assert (Hlo : ~ lower_bound cfg == 0) by lra.
  assert (Hn : GridTradingBot.needs_adjustment
                 (Qabs (fst (Bounds.bounds_of klines bounds_price)
                        - lower_bound cfg) / lower_bound cfg)
                 (Qabs (snd (Bounds.bounds_of klines bounds_price)
                        - upper_bound cfg) / upper_bound cfg) = true).
  { apply needs_adjustment_drifted. now apply zero_lower_bound_drifts. }
  rewrite (check_and_adjust_grid_aborted self now klines bounds_price
             ladder_price clock cfg s Hcfg Hdue Hlo Hup Hgs Hz Hn).
  cbn [snd active_orders orders_file grid_config requests last_atr_update
           outbox].
  repeat (split; [reflexivity|]). rewrite app_assoc. apply last_last.
Qed.

Lemma adjustment_to_zero_lower_bound_witness :
  fst (Bounds.bounds_of [] 0) == 0
  /\ active_orders outage_bot = []
  /\ last_atr_update outage_bot = last_atr_update sample_bot.
Proof.
  assert (Hz : fst (Bounds.bounds_of [] 0) == 0) by reflexivity.
  assert (Hpos : 0 < lower_bound sample_cfg) by reflexivity.
  assert (Hup : ~ upper_bound sample_cfg == 0) by discriminate.
  assert (Hgs : cfg_grid_size sample_settings <> 0%Z) by discriminate.
  destruct (adjustment_to_zero_lower_bound sample_settings 900 [] 0 0
              sample_clock sample_cfg sample_bot sample_bot_configured
              sample_adjustment_due Hpos Hup Hgs Hz)
    as (H1 & _ & _ & _ & H5 & _).
  split; [exact Hz|]. split; assumption.
Defined.

(** X12.  Once the configured lower bound is zero, every later due cycle
    of [check_and_adjust_grid] divides by it before anything else: apart
    from the bounds notice, the bot is left exactly as it was, without
    orders being placed and without [last_atr_update] advancing, so the
    grid is never rebuilt. *)
Theorem adjustment_stuck_on_zero_lower_bound
        (self : Settings) (now : Z) (klines : list Kline)
        (bounds_price ladder_price : Q) (clock : Side -> nat -> Oracle)
        (cfg : GridConfig) (s : Bot) :
  grid_config s = Some cfg ->
  (cfg_adjust_interval self * 60 <= now - last_atr_update s)%Z ->
  lower_bound cfg == 0 ->
  exec (GridTradingBot.check_and_adjust_grid self now klines bounds_price
          ladder_price clock) s
  = set_outbox (outbox s ++ Bounds.bounds_notices klines bounds_price) s.
Proof.
  intros Hcfg Hdue Hz. unfold exec.
  now rewrite (check_and_adjust_grid_stuck self now klines bounds_price
                 ladder_price clock cfg s Hcfg Hdue Hz).
Qed.

Lemma adjustment_stuck_on_zero_lower_bound_witness :
  (exists cfg, grid_config outage_bot = Some cfg /\ lower_bound cfg == 0)
  /\ active_orders
       (exec (GridTradingBot.check_and_adjust_grid sample_settings 1800
                candles_atr_2 100 100 sample_clock) outage_bot) = [].
Proof.
  assert (Hc : exists cfg,
             grid_config outage_bot = Some cfg /\ lower_bound cfg == 0)
    by (eexists; split; vm_compute; reflexivity).
  split; [exact Hc|].
  destruct Hc as (cfg & Hcfg & Hz).
  assert (Hdue : (cfg_adjust_interval sample_settings * 60
                  <= 1800 - last_atr_update outage_bot)%Z)
    by (intro H; vm_compute in H; discriminate).
  rewrite (adjustment_stuck_on_zero_lower_bound sample_settings 1800
             candles_atr_2 100 100 sample_clock cfg outage_bot Hcfg Hdue Hz).
  vm_compute. reflexivity.
Defined.

(** * Properties of the utilities *)

(** ** RiskManager *)

Section Risk.

Import RiskManager.

Lemma run_snoc (calls : list Call) (c : Call) (self : Manager) :
  run (calls ++ [c]) self = step (run calls self) c.
Proof.
  unfold run. now rewrite fold_left_app.
Qed.

Lemma update_pnl_peak (self : Manager) (pnl_change current_balance : Q) :
  peak_balance self
  <= peak_balance (fst (update_pnl self pnl_change current_balance))
  /\ current_balance
     <= peak_balance (fst (update_pnl self pnl_change current_balance)).
Proof.
  unfold update_pnl. cbn [peak_balance].
  destruct (Qltb (peak_balance self) current_balance) eqn:E; cbn [fst peak_balance].
  - apply Qltb_lt in E. split; lra.
  - apply Qltb_ge in E. split; lra.
Qed.

Lemma step_update (acc : Manager * list RiskStatus) (p b : Q) :
  step acc (Update p b)
  = (fst (update_pnl (fst acc) p b),
     snd acc ++ [snd (update_pnl (fst acc) p b)]).
Proof.
  unfold step. now destruct (update_pnl (fst acc) p b).
Qed.

Lemma step_peak (acc : Manager * list RiskStatus) (c : Call) :
  peak_balance (fst acc) <= peak_balance (fst (step acc c)).
Proof.
  destruct c as [p b|].
  - rewrite step_update. cbn [fst]. apply update_pnl_peak.
  - apply Qle_refl.
Qed.

Lemma run_peak (calls : list Call) (self : Manager) :
  peak_balance self <= peak_balance (fst (run calls self))
  /\ forall p b, In (Update p b) calls ->
                 b <= peak_balance (fst (run calls self)).
Proof.
  induction calls as [|c calls [IH1 IH2]] using rev_ind.
  - split; [apply Qle_refl | intros p b []].
  - rewrite run_snoc. pose proof (step_peak (run calls self) c) as Hs.
    split; [lra|]. intros p b Hin. apply in_app_or in Hin.
    destruct Hin as [Hin|[->|[]]].
    + specialize (IH2 p b Hin). lra.
    + rewrite step_update. cbn [fst]. apply update_pnl_peak.
Qed.

Lemma update_pnl_session_start (self : Manager) (p b : Q) :
  session_start_balance (fst (update_pnl self p b))
  = session_start_balance self.
Proof.
  unfold update_pnl. cbn [peak_balance fst].
  now destruct (Qltb (peak_balance self) b).
Qed.

Lemma step_session_start (acc : Manager * list RiskStatus) (c : Call) :
  session_start_balance (fst (step acc c)) = session_start_balance (fst acc).
Proof.
  destruct c as [p b|]; [|reflexivity].
  rewrite step_update. cbn [fst]. apply update_pnl_session_start.
Qed.

Lemma check_risk_limits_no_session (self : Manager) (current_balance : Q) :
  session_start_balance self = 0 ->
  daily_limit_exceeded (check_risk_limits self current_balance) = false
  /\ should_stop_trading (check_risk_limits self current_balance)
     = drawdown_limit_exceeded (check_risk_limits self current_balance).
Proof.
  intro H. unfold check_risk_limits. rewrite H. split; reflexivity.
Qed.

Lemma update_pnl_status (self : Manager) (p b : Q) :
  snd (update_pnl self p b) = check_risk_limits (fst (update_pnl self p b)) b.
Proof. reflexivity. Qed.

Lemma run_no_session (calls : list Call) (self : Manager) :
  session_start_balance self = 0 ->
  session_start_balance (fst (run calls self)) = 0
  /\ Forall (fun st => daily_limit_exceeded st = false
                       /\ should_stop_trading st = drawdown_limit_exceeded st)
            (snd (run calls self)).
Proof.
  intro H0. induction calls as [|c calls [IH1 IH2]] using rev_ind.
  - split; [assumption | constructor].
  - rewrite run_snoc. split; [now rewrite step_session_start|].
    destruct c as [p b|]; [|assumption].
    rewrite step_update. cbn [snd]. apply Forall_app. split; [assumption|].
    constructor; [|constructor]. rewrite update_pnl_status.
    apply check_risk_limits_no_session.
    now rewrite update_pnl_session_start.
Qed.


End Risk.

(** X13.  Over any sequence of [update_pnl] and [reset_daily_pnl] calls,
    [peak_balance] never decreases, and it ends at or above every balance
    that was reported. *)
Theorem risk_peak_balance_monotone
        (calls : list RiskManager.Call) (self : RiskManager.Manager) :
  RiskManager.peak_balance self
  <= RiskManager.peak_balance (fst (RiskManager.run calls self))
  /\ forall pnl_change current_balance,
       In (RiskManager.Update pnl_change current_balance) calls ->
       current_balance
       <= RiskManager.peak_balance (fst (RiskManager.run calls self)).
Proof.
  apply run_peak.
Qed.

Lemma risk_peak_balance_monotone_witness :
  120 <= RiskManager.peak_balance
           (fst (RiskManager.run
                   [RiskManager.Update 5 120; RiskManager.Reset;
                    RiskManager.Update (-30) 90]
                   (RiskManager.init 0.1 0.05))).
Proof.
  apply (proj2 (risk_peak_balance_monotone
                  [RiskManager.Update 5 120; RiskManager.Reset;
                   RiskManager.Update (-30) 90]
                  (RiskManager.init 0.1 0.05)) 5 120).
  left. reflexivity.
Defined.

(** X14.  No method of [RiskManager] ever sets [session_start_balance],
    which [__init__] leaves at zero: on a manager driven through
    [update_pnl] and [reset_daily_pnl] only, the daily-loss limit is never
    reported as exceeded, whatever the losses, and [should_stop_trading]
    is the drawdown flag alone. *)
Theorem risk_daily_limit_never_reported
        (max_drawdown max_daily_loss : Q) (calls : list RiskManager.Call) :
  let result :=
    RiskManager.run calls (RiskManager.init max_drawdown max_daily_loss) in
  RiskManager.session_start_balance (fst result) = 0
  /\ Forall (fun st =>
               RiskManager.daily_limit_exceeded st = false
               /\ RiskManager.should_stop_trading st
                  = RiskManager.drawdown_limit_exceeded st)
            (snd result).
Proof.
  cbv zeta. now apply run_no_session.
Qed.



(** ** PerformanceTracker: totals and streak bounds *)

Section Totals.

Import PerformanceTracker.

Lemma add_trade_totals (self : Tracker) (profit : Q) :
  trades_count (add_trade self profit) = (trades_count self + 1)%nat
  /\ total_profit (add_trade self profit) - total_loss (add_trade self profit)
     == total_profit self - total_loss self + profit
  /\ (0 <= total_profit self -> 0 <= total_profit (add_trade self profit))
  /\ (0 <= total_loss self -> 0 <= total_loss (add_trade self profit)).
Proof.
  unfold add_trade, _update_streak.
  destruct (Qltb 0 profit) eqn:E; cbn [trades_count total_profit total_loss].
  - apply Qltb_lt in E. repeat split; try ring; try (intro; lra).
  - apply Qltb_ge in E. pose proof (Qabs_neg profit E) as Ha.
    repeat split; try (intro; lra). rewrite Ha. ring.
Qed.

Lemma after_totals (profits : list Q) :
  trades_count (after profits) = length profits
  /\ total_profit (after profits) - total_loss (after profits)
     == pysum profits
  /\ 0 <= total_profit (after profits)
  /\ 0 <= total_loss (after profits).
Proof.
  induction profits as [|p ps (IH1 & IH2 & IH3 & IH4)] using rev_ind.
  - repeat split; apply Qle_refl.
  - rewrite after_snoc, length_app, pysum_snoc.
    destruct (add_trade_totals (after ps) p) as (H1 & H2 & H3 & H4).
    rewrite H1, H2, IH1, IH2. simpl. repeat split; auto; reflexivity.
Qed.

Lemma add_trade_streak_bounded (self : Tracker) (profit : Q) :
  streak_bounded self -> streak_bounded (add_trade self profit).
Proof.
  unfold streak_bounded, add_trade, _update_streak.
  intros (Hw & Hl & Hs).
  destruct (Qltb 0 profit);
    cbn [max_consecutive_wins max_consecutive_losses winning_trades
           losing_trades current_streak current_streak_type];
    destruct (current_streak_type self) as [[|]|]; simpl; lia.
Qed.

Lemma after_streak_bounded (profits : list Q) : streak_bounded (after profits).
Proof.
  induction profits as [|p ps IH] using rev_ind.
  - unfold streak_bounded. simpl. lia.
  - rewrite after_snoc. now apply add_trade_streak_bounded.
Qed.

Lemma Qnat_ratio_bounds (a b : nat) :
  (a <= b)%nat -> (0 < b)%nat ->
  0 <= Qnat a / Qnat b * 100 /\ Qnat a / Qnat b * 100 <= 100.
Proof.
  intros Hab Hb.
  assert (Pb : 0 < Qnat b) by (apply Qnat_pos; lia).
  assert (Pa : 0 <= Qnat a) by (unfold Qnat, Qle; simpl; lia).
  assert (Pab : Qnat a <= Qnat b) by (unfold Qnat, Qle; simpl; lia).
  assert (L : 0 <= Qnat a / Qnat b).
  { unfold Qdiv. apply Qmult_le_0_compat; [assumption|].
    apply Qinv_le_0_compat. lra. }
  assert (U : Qnat a / Qnat b <= 1).
  { apply Qle_shift_div_r; [assumption | lra]. }
  split; lra.
Qed.

End Totals.

(** X16.  For a fresh tracker fed any sequence of trades, [get_stats]
    reports as [total_trades] the number of trades, which is the sum of
    the winning and the losing ones; as [total_pnl] the sum of all the
    profits recorded; non-negative [total_profit] and [total_loss]; and a
    [win_rate] between 0 and 100. *)
Theorem get_stats_totals (profits : list Q) (runtime_seconds : Q) :
  let stats :=
    PerformanceReport.get_stats (PerformanceTracker.after profits)
                                runtime_seconds in
  PerformanceReport.total_trades stats = length profits
  /\ PerformanceReport.total_trades stats
     = (PerformanceReport.winning_trades stats
        + PerformanceReport.losing_trades stats)%nat
  /\ PerformanceReport.total_pnl stats == pysum profits
  /\ 0 <= PerformanceReport.total_profit stats
  /\ 0 <= PerformanceReport.total_loss stats
  /\ 0 <= PerformanceReport.win_rate stats
  /\ PerformanceReport.win_rate stats <= 100.
Proof.
  cbv zeta. unfold PerformanceReport.get_stats.
  cbn [PerformanceReport.total_trades PerformanceReport.winning_trades
         PerformanceReport.losing_trades PerformanceReport.total_pnl
         PerformanceReport.total_profit PerformanceReport.total_loss
         PerformanceReport.win_rate].
  destruct (after_totals profits) as (H1 & H2 & H3 & H4).
  destruct (after_counts profits) as [Hw Hl].
  assert (Hsum : PerformanceTracker.trades_count (PerformanceTracker.after profits)
                 = (PerformanceTracker.winning_trades
                      (PerformanceTracker.after profits)
                    + PerformanceTracker.losing_trades
                        (PerformanceTracker.after profits))%nat).
  { rewrite H1, Hw, Hl. clear. induction profits as [|p ps IH]; [reflexivity|].
    simpl. unfold Qltb at 1. destruct (Qle_bool p 0); simpl; lia. }
  repeat (split; [assumption|]).
  destruct (0 <? PerformanceTracker.trades_count
                   (PerformanceTracker.after profits))%nat eqn:E.
  - apply Nat.ltb_lt in E. apply Qnat_ratio_bounds; lia.
  - split; [apply Qle_refl | discriminate].
Qed.

(** X17.  For a fresh tracker fed any sequence of trades: the longest
    winning streak is at most the number of winning trades, the longest
    losing streak at most the number of losing trades, and after at least
    one trade the current streak is at least 1 and at most the recorded
    maximum of its own type. *)
Theorem streaks_within_maxima (profits : list Q) :
  let self := PerformanceTracker.after profits in
  (PerformanceTracker.max_consecutive_wins self
   <= PerformanceTracker.winning_trades self)%nat
  /\ (PerformanceTracker.max_consecutive_losses self
      <= PerformanceTracker.losing_trades self)%nat
  /\ match PerformanceTracker.current_streak_type self with
     | Some PerformanceTracker.Win =>
         (1 <= PerformanceTracker.current_streak self
          <= PerformanceTracker.max_consecutive_wins self)%nat
     | Some PerformanceTracker.Loss =>
         (1 <= PerformanceTracker.current_streak self
          <= PerformanceTracker.max_consecutive_losses self)%nat
     | None => profits = []
     end.
Proof.
  cbv zeta. destruct (after_streak_bounded profits) as (Hw & Hl & Hs).
  split; [assumption|]. split; [assumption|].
  destruct (PerformanceTracker.current_streak_type
              (PerformanceTracker.after profits)) as [[|]|] eqn:Et;
    try assumption.
  destruct profits as [|p ps] using rev_ind; [reflexivity|].
  rewrite after_snoc in Et.
  destruct (add_trade_streak (PerformanceTracker.after ps) p) as [Ht _].
  rewrite Ht in Et. discriminate.
Qed.

(** ** MarketAnalyzer *)

Section Market.

Import MarketAnalyzer.












End Market.





(** ** Dictionaries *)

Section DictLemmas.

Import PyDict.

Context {V : Type}.

Lemma lookup_store (k k' : string) (v : V) (d : dict V) :
  lookup k (store k' v d)
  = if String.eqb k' k then Some v else lookup k d.
Proof.
  induction d as [|[k0 v0] d IH]; simpl.
  - reflexivity.
  - destruct (String.eqb k0 k') eqn:E0; simpl.
    + apply String.eqb_eq in E0. subst k0.
      destruct (String.eqb k' k); reflexivity.
    + rewrite IH. destruct (String.eqb k0 k) eqn:E1; [|reflexivity].
      apply String.eqb_eq in E1. subst k0.
      rewrite String.eqb_sym, E0. reflexivity.
Qed.

Lemma keys_store_present (k : string) (v : V) (d : dict V) :
  mem k d = true -> keys (store k v d) = keys d.
Proof.
  unfold mem, keys. induction d as [|[k0 v0] d IH]; simpl.
  - discriminate.
  - destruct (String.eqb k0 k) eqn:E; simpl.
    + intros _. apply String.eqb_eq in E. now subst.
    + intro H. now rewrite IH.
Qed.

Lemma lookup_remove (k k' : string) (d : dict V) :
  lookup k (remove k' d) = if String.eqb k' k then None else lookup k d.
Proof.
  unfold remove. induction d as [|[k0 v0] d IH]; simpl.
  - now destruct (String.eqb k' k).
  - destruct (String.eqb k0 k') eqn:E0; simpl.
    + rewrite IH. apply String.eqb_eq in E0. subst k0.
      now destruct (String.eqb k' k).
    + rewrite IH. destruct (String.eqb k0 k) eqn:E1; [|reflexivity].
      apply String.eqb_eq in E1. subst k0.
      rewrite String.eqb_sym, E0. reflexivity.
Qed.

Lemma NoDup_keys_unique (d : dict V) (a b : string * V) :
  NoDup (keys d) -> In a d -> In b d -> fst a = fst b -> a = b.
Proof.
  unfold keys. induction d as [|x d IH]; simpl; [contradiction|].
  intros Hnd Ha Hb Hab. inversion Hnd as [|? ? Hnotin Hnd']; subst.
  destruct Ha as [->|Ha]; destruct Hb as [->|Hb]; auto.
  - exfalso. apply Hnotin. rewrite Hab. now apply in_map.
  - exfalso. apply Hnotin. rewrite <- Hab. now apply in_map.
Qed.

End DictLemmas.

(** ** ConfigValidator.get_safe_config *)

Section SafeConfig.

Import PyDict ConfigValidator.

Lemma mask_key_lookup (d : dict Value) (key k : string) :
  lookup k (mask_key d key)
  = if String.eqb key k then mask_if_present (lookup k d) else lookup k d.
Proof.
  unfold mask_key, mem.
  destruct (lookup key d) as [v|] eqn:E.
  - rewrite lookup_store. destruct (String.eqb key k) eqn:Ek; [|reflexivity].
    apply String.eqb_eq in Ek. subst. now rewrite E.
  - destruct (String.eqb key k) eqn:Ek; [|reflexivity].
    apply String.eqb_eq in Ek. subst. now rewrite E.
Qed.

Lemma mask_key_keys (d : dict Value) (key : string) :
  keys (mask_key d key) = keys d.
Proof.
  unfold mask_key. destruct (mem key d) eqn:E; [|reflexivity].
  now apply keys_store_present.
Qed.

Lemma mask_all_lookup (ks : list string) (k : string) :
  forall d,
    lookup k (fold_left mask_key ks d)
    = if existsb (String.eqb k) ks then mask_if_present (lookup k d)
      else lookup k d.
Proof.
  induction ks as [|key ks IH]; intro d; simpl; [reflexivity|].
  rewrite IH, mask_key_lookup, (String.eqb_sym k key).
  destruct (String.eqb key k); simpl; [|reflexivity].
  destruct (existsb (String.eqb k) ks); [|reflexivity].
  now destruct (lookup k d).
Qed.

Lemma mask_all_keys (ks : list string) :
  forall d, keys (fold_left mask_key ks d) = keys d.
Proof.
  induction ks as [|key ks IH]; intro d; simpl; [reflexivity|].
  now rewrite IH, mask_key_keys.
Qed.

End SafeConfig.

(** X20.  [get_safe_config] returns a dictionary with the keys of the
    configuration, in the same order; under each of the four sensitive
    keys that is present the value is the mask, a sensitive key that is
    absent stays absent, and every other key keeps its value. *)
Theorem get_safe_config_masks (config : PyDict.dict Value) (k : string) :
  PyDict.keys (ConfigValidator.get_safe_config config) = PyDict.keys config
  /\ PyDict.lookup k (ConfigValidator.get_safe_config config)
     = if ConfigValidator.is_sensitive k
       then ConfigValidator.mask_if_present (PyDict.lookup k config)
       else PyDict.lookup k config.
Proof.
  unfold ConfigValidator.get_safe_config, ConfigValidator.is_sensitive.
  split; [apply mask_all_keys | apply mask_all_lookup].
Qed.

Example get_safe_config_sample :
  ConfigValidator.get_safe_config
    [("SYMBOL", VStr "BTC-USDT"); ("TELEGRAM_TOKEN", VStr "12:ab");
     ("BUDGET", VNum 1000)]%string
  = [("SYMBOL", VStr "BTC-USDT");
     ("TELEGRAM_TOKEN", ConfigValidator.masked);
     ("BUDGET", VNum 1000)]%string.
Proof. reflexivity. Qed.

(** ** OrderManager *)

Section Orders.

Import PyDict OrderManager.

Lemma mem_remove (k : string) (d : dict (dict Value)) :
  lookup k (remove k d) = None.
Proof.
  rewrite lookup_remove. now rewrite String.eqb_refl.
Qed.

Lemma mark_filled_pending (self : Manager) (order_id : string)
      (fill_data order : dict Value) (now : Z) :
  lookup order_id (pending_orders self) = Some order ->
  mark_filled self order_id fill_data now
  = (mkManager
       (remove order_id (pending_orders self))
       (store order_id
          (store "status" (VStr "filled")
             (store "filled_at" (VTime now) (update order fill_data)))
          (filled_orders self))
       (cancelled_orders self),
     Some order).
Proof.
  intro H. unfold mark_filled. now rewrite H.
Qed.

Lemma mark_absent (self : Manager) (order_id : string)
      (fill_data : dict Value) (now : Z) :
  lookup order_id (pending_orders self) = None ->
  mark_filled self order_id fill_data now = (self, None)
  /\ mark_cancelled self order_id now = (self, None).
Proof.
  intro H. unfold mark_filled, mark_cancelled. now rewrite H.
Qed.

Lemma is_old_timed (key : string) (cutoff later : Z) (order : dict Value)
      (t : Z) :
  lookup key order = Some (VTime t) ->
  is_old key cutoff later order = Some (t <? cutoff)%Z.
Proof.
  intro H. unfold is_old. now rewrite H.
Qed.

Lemma old_ids_timed (key : string) (cutoff : Z) (later : string -> Z)
      (orders : dict (dict Value)) :
  timed key orders ->
  old_ids key cutoff later orders
  = Some (keys (filter (is_old_record key cutoff) orders)).
Proof.
  unfold timed, keys. induction orders as [|[id order] rest IH]; intro H.
  - reflexivity.
  - inversion H as [|? ? [t Ht] Hrest]; subst. cbn [snd] in Ht.
    change (old_ids key cutoff later ((id, order) :: rest))
      with (match is_old key cutoff (later id) order with
            | None => None
            | Some b =>
                match old_ids key cutoff later rest with
                | None => None
                | Some ids => Some (if b then id :: ids else ids)
                end
            end).
    rewrite (is_old_timed key cutoff (later id) order t Ht), (IH Hrest).
    assert (E : is_old_record key cutoff (id, order) = (t <? cutoff)%Z)
      by (unfold is_old_record; cbn [snd]; now rewrite Ht).
    cbn [filter]. rewrite E. now destruct (t <? cutoff)%Z.
Qed.

Lemma delete_all_filter (ids : list string) :
  forall orders : dict (dict Value),
    delete_all ids orders
    = filter (fun kv => negb (existsb (String.eqb (fst kv)) ids)) orders.
Proof.
  unfold delete_all. induction ids as [|id ids IH]; intro orders; simpl.
  - induction orders as [|kv orders IHo]; [reflexivity|].
    simpl. now rewrite <- IHo.
  - rewrite IH. unfold remove.
    induction orders as [|kv orders IHo]; [reflexivity|]. simpl.
    destruct (String.eqb (fst kv) id); simpl; [assumption|].
    destruct (existsb (String.eqb (fst kv)) ids); simpl; [assumption|].
    now rewrite IHo.
Qed.

Lemma delete_old_is_recent (key : string) (cutoff : Z)
      (orders : dict (dict Value)) :
  NoDup (keys orders) ->
  delete_all (keys (filter (is_old_record key cutoff) orders)) orders
  = recent key cutoff orders.
Proof.
  intro Hnd. rewrite delete_all_filter. unfold recent.
  apply filter_ext_in. intros kv Hkv.
  assert (E : existsb (String.eqb (fst kv))
                      (keys (filter (is_old_record key cutoff) orders))
              = is_old_record key cutoff kv).
  { destruct (is_old_record key cutoff kv) eqn:Eo.
    - apply existsb_exists. exists (fst kv). split; [|apply String.eqb_refl].
      unfold keys. apply in_map. apply filter_In. now split.
    - destruct (existsb _ _) eqn:Ee; [|reflexivity].
      apply existsb_exists in Ee. destruct Ee as (id & Hin & Hid).
      apply String.eqb_eq in Hid. unfold keys in Hin.
      apply in_map_iff in Hin. destruct Hin as (kv' & Hk & Hin').
      apply filter_In in Hin'. destruct Hin' as [Hin' Hold].
      assert (kv' = kv).
      { apply (NoDup_keys_unique orders); try assumption. congruence. }
      subst kv'. congruence. }
  rewrite E. unfold is_old_record.
  destruct (lookup key (snd kv)) as [[| |t]|]; reflexivity.
Qed.

End Orders.

(** X21.  An order added with [add_pending_order] and then marked filled
    is handed back as it was stored (the order data with its creation
    time and status ["pending"]), leaves the pending orders, and is filed
    under its identifier with status ["filled"] and the filling time,
    whatever [fill_data] holds under those two keys; a second
    [mark_filled] or a [mark_cancelled] of the same identifier then
    returns nothing and changes nothing. *)
Theorem order_filled_once
        (self : OrderManager.Manager) (order_id : string)
        (order_data fill_data : PyDict.dict Value) (t0 t1 t2 : Z) :
  let stored :=
    PyDict.store "status" (VStr "pending")
                 (PyDict.store "created_at" (VTime t0) order_data) in
  let pending := OrderManager.add_pending_order self order_id order_data t0 in
  let filled := OrderManager.mark_filled pending order_id fill_data t1 in
  snd filled = Some stored
  /\ PyDict.lookup order_id (OrderManager.pending_orders (fst filled)) = None
  /\ (exists record,
         PyDict.lookup order_id (OrderManager.filled_orders (fst filled))
         = Some record
         /\ PyDict.lookup "status" record = Some (VStr "filled")
         /\ PyDict.lookup "filled_at" record = Some (VTime t1))
  /\ OrderManager.mark_filled (fst filled) order_id fill_data t2
     = (fst filled, None)
  /\ OrderManager.mark_cancelled (fst filled) order_id t2
     = (fst filled, None).
Proof.
  cbv zeta.
  assert (Hl : PyDict.lookup order_id
                 (OrderManager.pending_orders
                    (OrderManager.add_pending_order self order_id order_data
                       t0))
               = Some (PyDict.store "status" (VStr "pending")
                         (PyDict.store "created_at" (VTime t0) order_data))).
  { unfold OrderManager.add_pending_order.
    cbn [OrderManager.pending_orders].
    now rewrite lookup_store, String.eqb_refl. }
  rewrite (mark_filled_pending _ _ fill_data _ t1 Hl). cbn [fst snd].
  split; [reflexivity|].
  cbn [OrderManager.pending_orders OrderManager.filled_orders].
  split; [apply mem_remove|]. split.
  - eexists. split; [rewrite lookup_store, String.eqb_refl; reflexivity|].
    split; [now rewrite lookup_store|].
    rewrite !lookup_store. reflexivity.
  - apply mark_absent. cbn [OrderManager.pending_orders]. apply mem_remove.
Qed.

(** X22.  On a manager whose filled and cancelled records each carry
    their time (as those written by [mark_filled] and [mark_cancelled]
    do) under distinct identifiers, [cleanup_old_orders] does not raise,
    leaves the pending orders untouched, and keeps of the filled and of
    the cancelled records exactly those whose time is not before
    [now - hours], in their order. *)
Theorem cleanup_keeps_recent_orders
        (self : OrderManager.Manager) (hours now : Z) (later : string -> Z) :
  OrderManager.timed "filled_at" (OrderManager.filled_orders self) ->
  OrderManager.timed "cancelled_at" (OrderManager.cancelled_orders self) ->
  NoDup (PyDict.keys (OrderManager.filled_orders self)) ->
  NoDup (PyDict.keys (OrderManager.cancelled_orders self)) ->
  OrderManager.cleanup_old_orders self hours now later
  = (Ret tt,
     OrderManager.mkManager
       (OrderManager.pending_orders self)
       (OrderManager.recent "filled_at" (now - hours * 3600)
                            (OrderManager.filled_orders self))
       (OrderManager.recent "cancelled_at" (now - hours * 3600)
                            (OrderManager.cancelled_orders self))).
Proof.
  intros Hf Hc Nf Nc. unfold OrderManager.cleanup_old_orders.
  rewrite (old_ids_timed _ _ _ _ Hf).
  cbn [OrderManager.cancelled_orders OrderManager.pending_orders
         OrderManager.filled_orders].
  rewrite (old_ids_timed _ _ _ _ Hc).
  now rewrite !delete_old_is_recent.
Qed.

Lemma cleanup_keeps_recent_orders_witness :
  let stale :=
    fst (OrderManager.mark_filled
           (OrderManager.add_pending_order OrderManager.init "a" [] 0)
           "a" [] 10) in
  let both :=
    fst (OrderManager.mark_filled
           (OrderManager.add_pending_order stale "b" [] 90000)
           "b" [] 90010) in
  PyDict.keys
    (OrderManager.filled_orders
       (snd (OrderManager.cleanup_old_orders both 24 100000 (fun _ => 100000%Z))))
  = ["b"%string].
Proof.
  cbv zeta.
  rewrite cleanup_keeps_recent_orders.
  - reflexivity.
  - repeat constructor; eexists; reflexivity.
  - constructor.
  - repeat constructor; simpl; intuition discriminate.
  - constructor.
Defined.
